(** * Tangem diagnostic scripts: address derivation and signature-recovery search

    A shallow embedding of the Python scripts

      - [test_all_wallets.py]          ([derive_address_from_public_key])
      - [test_key_derivation.py]       ([derive_address_from_public_key])
      - [verify_tangem_signature.py]   ([verify_signature_recovery])

    The scripts call two libraries, [eth_utils] (Keccak-256) and [eth_keys]
    (secp256k1 keys and signatures).  The embedded functions take the
    library entry points as parameters, and every general statement holds
    for all of them.  Executable instances of the library functions
    ([Keccak], [Secp256k1]) are given beside them, so that the embedded
    functions run on the keys, hashes and signatures found in the scripts.

    Strings are ASCII strings; [bytes] are lists of bytes; Python integers
    are [Z]. *)

From Stdlib Require Import ZArith List String Ascii Bool Lia.
From Stdlib Require Import Init.Byte DecimalString.
From Bignums Require Import BigZ.BigZ.
Import ListNotations.

Local Open Scope Z_scope.

(* ================================================================= *)
(** ** Python values: [bytes] and [str] *)

(** A Python [bytes] object. *)
Definition bytes := list byte.

Definition Z_of_byte (b : byte) : Z := Z.of_N (Byte.to_N b).

Definition byte_of_Z (z : Z) : byte :=
  match Byte.of_N (Z.to_N (z mod 256)) with
  | Some b => b
  | None => x00
  end.

(** One lower-case hexadecimal digit, as [bytes.hex()] prints it. *)
Definition hex_digit (n : Z) : ascii :=
  match n with
  | 0 => "0" | 1 => "1" | 2 => "2" | 3 => "3" | 4 => "4" | 5 => "5"
  | 6 => "6" | 7 => "7" | 8 => "8" | 9 => "9" | 10 => "a" | 11 => "b"
  | 12 => "c" | 13 => "d" | 14 => "e" | _ => "f"
  end%char.

(** [b.hex()]: two lower-case digits per byte, high nibble first. *)
Fixpoint bytes_hex (bs : bytes) : string :=
  match bs with
  | [] => EmptyString
  | b :: bs' =>
      String (hex_digit (Z_of_byte b / 16))
        (String (hex_digit (Z_of_byte b mod 16)) (bytes_hex bs'))
  end.

(** Value of one hexadecimal digit; both cases are accepted. *)
Definition hex_value (c : ascii) : option Z :=
  let n := Z.of_nat (nat_of_ascii c) in
  if (48 <=? n) && (n <=? 57) then Some (n - 48)
  else if (97 <=? n) && (n <=? 102) then Some (n - 87)
  else if (65 <=? n) && (n <=? 70) then Some (n - 55)
  else None.

(** ASCII white space, which [bytes.fromhex] skips between bytes:
    space, TAB, LF, VT, FF, CR. *)
Definition is_space (c : ascii) : bool :=
  let n := Z.of_nat (nat_of_ascii c) in
  (n =? 32) || ((9 <=? n) && (n <=? 13)).

(** [bytes.fromhex(s)]: two hexadecimal digits per byte, white space
    between bytes ignored; [None] stands for the [ValueError] raised on
    any other character or on a dangling digit. *)
Fixpoint bytes_fromhex (s : string) : option bytes :=
  match s with
  | EmptyString => Some []
  | String c rest =>
      if is_space c then bytes_fromhex rest
      else
        match rest with
        | EmptyString => None
        | String d rest' =>
            match hex_value c, hex_value d with
            | Some h, Some l =>
                match bytes_fromhex rest' with
                | Some bs => Some (byte_of_Z (16 * h + l) :: bs)
                | None => None
                end
            | _, _ => None
            end
        end
  end.

(** [s.lower()] on the ASCII range. *)
Definition lower_char (c : ascii) : ascii :=
  let n := nat_of_ascii c in
  if ((65 <=? n) && (n <=? 90))%nat then ascii_of_nat (n + 32) else c.

Fixpoint lower (s : string) : string :=
  match s with
  | EmptyString => EmptyString
  | String c s' => String (lower_char c) (lower s')
  end.

(** [c.upper()] on the ASCII range. *)
Definition upper_char (c : ascii) : ascii :=
  let n := nat_of_ascii c in
  if ((97 <=? n) && (n <=? 122))%nat then ascii_of_nat (n - 32) else c.

(** [s.startswith('0x')] followed by [s = s[2:]], the first statement of
    all three functions. *)
Definition strip_0x (s : string) : string :=
  if prefix "0x" s then substring 2 (String.length s - 2) s else s.

(** [b[-n:]]: the last [n] bytes, the whole of [b] when it is shorter. *)
Definition last_bytes (n : nat) (b : bytes) : bytes :=
  skipn (List.length b - n) b.

(** [b[1:]]. *)
Definition drop_first (b : bytes) : bytes := skipn 1 b.

(* ================================================================= *)
(** ** Keccak-256 ([eth_utils.keccak]) *)

Module Keccak.

(** 64-bit lanes are integers in [0, 2^64). *)
Definition w64 (z : Z) : Z := Z.land z 0xFFFFFFFFFFFFFFFF.

Definition rotl (x n : Z) : Z :=
  w64 (Z.lor (Z.shiftl x n) (Z.shiftr x (64 - n))).

Definition round_constants : list Z :=
  [ 0x0000000000000001; 0x0000000000008082; 0x800000000000808A;
    0x8000000080008000; 0x000000000000808B; 0x0000000080000001;
    0x8000000080008081; 0x8000000000008009; 0x000000000000008A;
    0x0000000000000088; 0x0000000080008009; 0x000000008000000A;
    0x000000008000808B; 0x800000000000008B; 0x8000000000008089;
    0x8000000000008003; 0x8000000000008002; 0x8000000000000080;
    0x000000000000800A; 0x800000008000000A; 0x8000000080008081;
    0x8000000000008080; 0x0000000080000001; 0x8000000080008008 ].

(** Rotation offsets, lane [(x, y)] at position [x + 5 * y]. *)
Definition rotation_offsets : list Z :=
  [  0;  1; 62; 28; 27;
    36; 44;  6; 55; 20;
     3; 10; 43; 25; 39;
    41; 45; 15; 21;  8;
    18;  2; 61; 56; 14 ].

(** The state: 25 lanes, lane [(x, y)] at position [x + 5 * y]. *)
Definition state := list Z.

Definition lane (st : state) (x y : nat) : Z :=
  nth (x mod 5 + 5 * (y mod 5)) st 0.

Definition positions : list nat := seq 0 25.

Definition theta (st : state) : state :=
  let C x := fold_left Z.lxor (map (lane st x) (seq 0 5)) 0 in
  let D x := Z.lxor (C (x + 4)%nat) (rotl (C (x + 1)%nat) 1) in
  map (fun i => Z.lxor (nth i st 0) (D (i mod 5)%nat)) positions.

(** rho and pi together: [B[y][2x+3y] = rotl A[x][y] r[x][y]]. *)
Definition rho_pi (st : state) : state :=
  map (fun i =>
         let X := (i mod 5)%nat in
         let Y := (i / 5)%nat in
         let x := ((X + 3 * Y) mod 5)%nat in
         let y := X in
         rotl (lane st x y) (nth (x + 5 * y) rotation_offsets 0))
      positions.

Definition chi (st : state) : state :=
  map (fun i =>
         let x := (i mod 5)%nat in
         let y := (i / 5)%nat in
         Z.lxor (lane st x y)
           (Z.land (w64 (Z.lnot (lane st (x + 1) y))) (lane st (x + 2) y)))
      positions.

Definition iota (rc : Z) (st : state) : state :=
  match st with
  | [] => []
  | a :: st' => Z.lxor a rc :: st'
  end.

Definition round (st : state) (rc : Z) : state :=
  iota rc (chi (rho_pi (theta st))).

Definition keccak_f (st : state) : state :=
  fold_left round round_constants st.

(** Rate of Keccak-256 in bytes. *)
Definition rate : nat := 136.

(** Multi-rate padding with the original Keccak domain bit (0x01). *)
Definition pad (m : list Z) : list Z :=
  let q := (rate - List.length m mod rate)%nat in
  if (q =? 1)%nat then m ++ [0x81]
  else m ++ [0x01] ++ repeat 0 (q - 2) ++ [0x80].

(** Little-endian value of at most eight bytes. *)
Fixpoint le_value (bs : list Z) : Z :=
  match bs with
  | [] => 0
  | b :: bs' => b + 256 * le_value bs'
  end.

Definition block_lane (block : list Z) (i : nat) : Z :=
  le_value (firstn 8 (skipn (8 * i) block)).

Definition xor_block (st : state) (block : list Z) : state :=
  map (fun i => Z.lxor (nth i st 0) (block_lane block i)) positions.

Fixpoint absorb (blocks : nat) (st : state) (m : list Z) : state :=
  match blocks with
  | O => st
  | S k => absorb k (keccak_f (xor_block st (firstn rate m))) (skipn rate m)
  end.

Definition state_byte (st : state) (i : nat) : Z :=
  Z.land (Z.shiftr (nth (i / 8) st 0) (8 * Z.of_nat (i mod 8))) 255.

Definition keccak256 (msg : bytes) : bytes :=
  let m := pad (map Z_of_byte msg) in
  let st := absorb (List.length m / rate) (repeat 0 25) m in
  map (fun i => byte_of_Z (state_byte st i)) (seq 0 32).

End Keccak.

(* ================================================================= *)
(** ** secp256k1 keys and signatures ([eth_keys]) *)

(** The pure-Python backend of [eth_keys] ([inv], [jacobian_double],
    [jacobian_add], [jacobian_multiply], [ecdsa_raw_recover],
    [decompress_public_key]), on [bigZ] so that it runs on 256-bit
    values. *)
Module Secp256k1.
Local Open Scope bigZ_scope.

(** Field prime, curve coefficients ([y^2 = x^3 + A x + B]), group
    order and generator. *)
Definition P : bigZ := 2 ^ 256 - 2 ^ 32 - 977.
Definition A : bigZ := 0.
Definition B : bigZ := 7.
Definition N : bigZ :=
  BigZ.of_Z 0xFFFFFFFFFFFFFFFFFFFFFFFFFFFFFFFEBAAEDCE6AF48A03BBFD25E8CD0364141.
Definition Gx : bigZ :=
  BigZ.of_Z 0x79BE667EF9DCBBAC55A06295CE870B07029BFCDB2DCE28D959F2815B16F81798.
Definition Gy : bigZ :=
  BigZ.of_Z 0x483ADA7726A3C4655DA4FBFC0E1108A8FD17B448A68554199C47D08FFB10D4B8.

(** [pow(b, e, m)] by square and multiply. *)
Fixpoint pow_mod_pos (b : bigZ) (e : positive) (m : bigZ) : bigZ :=
  match e with
  | xH => b mod m
  | xO e' => let t := pow_mod_pos b e' m in (t * t) mod m
  | xI e' => let t := pow_mod_pos b e' m in ((t * t) mod m * b) mod m
  end.

Definition pow_mod (b e m : bigZ) : bigZ :=
  match BigZ.to_Z e with
  | Zpos p => pow_mod_pos b p m
  | _ => 1 mod m
  end.

(** [inv(a, n)] for a prime [n]: [0] on [0], else the inverse of [a]. *)
Definition inv (a n : bigZ) : bigZ := pow_mod a (n - 2) n.

Definition big_endian_to_int (bs : bytes) : bigZ :=
  fold_left (fun acc b => acc * 256 + BigZ.of_Z (Z_of_byte b)) bs 0.

(** The [n] low-order bytes of [z], most significant first. *)
Fixpoint int_to_big_endian (n : nat) (z : bigZ) : bytes :=
  match n with
  | O => []
  | S k => int_to_big_endian k (z / 256) ++ [byte_of_Z (BigZ.to_Z (z mod 256))]
  end.

(** [x] and [y] as 32 big-endian bytes each. *)
Definition encode_raw_public_key (x y : bigZ) : bytes :=
  int_to_big_endian 32 x ++ int_to_big_endian 32 y.

Definition on_curve (x y : bigZ) : bool :=
  (y * y) mod P =? (x * x * x + A * x + B) mod P.

(** Points in Jacobian coordinates. *)
Definition jacobian : Type := bigZ * bigZ * bigZ.

Definition jacobian_double (p : jacobian) : jacobian :=
  let '(px, py, pz) := p in
  if py =? 0 then (0, 0, 0)
  else
    let ysq := (py * py) mod P in
    let S := (4 * px * ysq) mod P in
    let M := (3 * px * px + A * (pz * pz * pz * pz)) mod P in
    let nx := (M * M - 2 * S) mod P in
    let ny := (M * (S - nx) - 8 * ysq * ysq) mod P in
    let nz := (2 * py * pz) mod P in
    (nx, ny, nz).

Definition jacobian_add (p q : jacobian) : jacobian :=
  let '(px, py, pz) := p in
  let '(qx, qy, qz) := q in
  if py =? 0 then q
  else if qy =? 0 then p
  else
    let U1 := (px * (qz * qz)) mod P in
    let U2 := (qx * (pz * pz)) mod P in
    let S1 := (py * (qz * qz * qz)) mod P in
    let S2 := (qy * (pz * pz * pz)) mod P in
    if U1 =? U2 then
      if negb (S1 =? S2) then (0, 0, 1) else jacobian_double p
    else
      let H := U2 - U1 in
      let R := S2 - S1 in
      let H2 := (H * H) mod P in
      let H3 := (H * H2) mod P in
      let U1H2 := (U1 * H2) mod P in
      let nx := (R * R - H3 - 2 * U1H2) mod P in
      let ny := (R * (U1H2 - nx) - S1 * H3) mod P in
      let nz := (H * pz * qz) mod P in
      (nx, ny, nz).

Definition from_jacobian (p : jacobian) : bigZ * bigZ :=
  let '(px, py, pz) := p in
  let z := inv pz P in
  ((px * (z * z)) mod P, (py * (z * z * z)) mod P).

(** Double and add over the binary digits of a positive scalar. *)
Fixpoint jacobian_multiply_pos (a : jacobian) (n : positive) : jacobian :=
  match n with
  | xH => a
  | xO n' => jacobian_double (jacobian_multiply_pos a n')
  | xI n' => jacobian_add (jacobian_double (jacobian_multiply_pos a n')) a
  end.

Definition jacobian_multiply (a : jacobian) (n : bigZ) : jacobian :=
  let '(_, ay, _) := a in
  if ay =? 0 then (0, 0, 1)
  else
    match BigZ.to_Z (n mod N) with
    | Zpos k => jacobian_multiply_pos a k
    | _ => (0, 0, 1)
    end.

(** [ecdsa_raw_recover(msg_hash, (v, r, s))]: the raw public key that
    signed [msg_hash], or [None] for [BadSignature]. *)
Definition ecdsa_raw_recover (msg_hash : bytes) (v r s : bigZ)
  : option bytes :=
  let v := v + 27 in
  if negb ((27 <=? v) && (v <=? 34)) then None
  else
    let x := r in
    let xcubedaxb := (x * x * x + A * x + B) mod P in
    let beta := pow_mod xcubedaxb ((P + 1) / 4) P in
    let y :=
      if negb ((v mod 2) =? (beta mod 2)) then beta else P - beta in
    if negb ((xcubedaxb - y * y) mod P =? 0)
       || (r mod N =? 0) || (s mod N =? 0)
    then None
    else
      let z := big_endian_to_int msg_hash in
      let Gz := jacobian_multiply (Gx, Gy, 1) ((N - z) mod N) in
      let XY := jacobian_multiply (x, y, 1) s in
      let Qr := jacobian_add Gz XY in
      let Q := jacobian_multiply Qr (inv r N) in
      let '(qx, qy) := from_jacobian Q in
      Some (encode_raw_public_key qx qy).

(** [decompress_public_key(b)]: 33 bytes, a prefix 0x02 or 0x03 giving
    the parity of [y], then [x]; [y] is [(x^3 + 7)^((P+1)/4)] with that
    parity.  [None] stands for the exception raised on a wrong length or
    prefix.  Nothing tests that [y^2 = x^3 + 7]: an [x] that is not the
    abscissa of a curve point is decompressed like any other. *)
Definition decompress_public_key (b : bytes) : option bytes :=
  match b with
  | prefix :: xs =>
      if negb (Nat.eqb (List.length xs) 32) then None
      else
        let pre := Z_of_byte prefix in
        if negb ((pre =? 2) || (pre =? 3))%Z then None
        else
          let x := big_endian_to_int xs in
          let y_squared := (x * x * x + A * x + B) mod P in
          let y_abs := pow_mod y_squared ((P + 1) / 4) P in
          let y :=
            if ((pre =? 2)%Z && BigZ.odd y_abs)
               || ((pre =? 3)%Z && BigZ.even y_abs)
            then (- y_abs) mod P
            else y_abs in
          Some (encode_raw_public_key x y)
  | [] => None
  end.

(** [keys.PublicKey]: the object holds the 64 raw bytes [X || Y]. *)
Definition PublicKey : Type := bytes.

Definition from_compressed_bytes (b : bytes) : option PublicKey :=
  decompress_public_key b.

(** [PublicKey.to_bytes()]: the 64 raw bytes, without any prefix. *)
Definition to_bytes (k : PublicKey) : bytes := k.

(** [PublicKey.to_compressed_bytes()]. *)
Definition to_compressed_bytes (k : PublicKey) : bytes :=
  let y := big_endian_to_int (skipn 32 k) in
  (if BigZ.even y then x02 else x03) :: firstn 32 k.

(** [PublicKey.to_checksum_address()]: the last 20 bytes of the
    Keccak-256 digest of the raw key, printed with the mixed-case
    checksum of EIP-55. *)
Fixpoint checksum_case (address_hex hash_hex : string) : string :=
  match address_hex, hash_hex with
  | String c s, String h t =>
      String (match hex_value h with
              | Some n => if (7 <? n)%Z then upper_char c else c
              | None => c
              end) (checksum_case s t)
  | _, _ => address_hex
  end.

Definition checksum_address (address : bytes) : string :=
  let norm := bytes_hex address in
  let address_hash :=
    bytes_hex (Keccak.keccak256 (list_byte_of_string norm)) in
  ("0x" ++ checksum_case norm address_hash)%string.

Definition to_checksum_address (k : PublicKey) : string :=
  checksum_address (last_bytes 20 (Keccak.keccak256 (to_bytes k))).

(** [keys.Signature(vrs=(v, r, s))]: [v] is 0 or 1, [r] and [s] are
    in [0, N); [None] stands for the validation error. *)
Definition Signature : Type := (Z * Z * Z)%type.

Definition keys_Signature (vrs : Z * Z * Z) : option Signature :=
  let '(v, r, s) := vrs in
  if ((0 <=? v) && (v <=? 1) && (0 <=? r) && (r <? BigZ.to_Z N)
      && (0 <=? s) && (s <? BigZ.to_Z N))%Z
  then Some vrs else None.

(** [signature.recover_public_key_from_msg_hash(h)]: the hash goes to
    the backend as it is, whatever its length. *)
Definition recover_public_key_from_msg_hash (sig : Signature)
  (message_hash : bytes) : option PublicKey :=
  let '(v, r, s) := sig in
  ecdsa_raw_recover message_hash (BigZ.of_Z v) (BigZ.of_Z r) (BigZ.of_Z s).

End Secp256k1.

(* ================================================================= *)
(** ** Results of the derivation functions *)

(** [derive_address_from_public_key] always returns a string; the three
    shapes it can have are kept apart:
      - [Ok s]            the address string, [f"0x{address.hex()}"];
      - [InvalidLength n] the function's own message for a length of [n]
                          characters that matches no branch; its wording
                          is not the same in the three scripts:
                          "Invalid length: n chars" (test_all_wallets.py),
                          "Invalid public key length: n"
                          (test_key_derivation.py), "Invalid length: n"
                          (test_derivation_paths.py);
      - [Error]           [f"Error: {e}"], produced by the [except] clause. *)
Inductive result (T : Type) : Type :=
| Ok (value : T)
| InvalidLength (n : nat)
| Error.
Arguments Ok {T} value.
Arguments InvalidLength {T} n.
Arguments Error {T}.

(** The statement shared by the scripts,
    [if uncompressed_bytes[0] == 0x04: uncompressed_bytes = uncompressed_bytes[1:]].
    Indexing an empty buffer raises, which the [except] clause turns into
    the error string. *)
Definition strip_04 (uncompressed_bytes : bytes) : result bytes :=
  match uncompressed_bytes with
  | [] => Error
  | b0 :: _ =>
      if Z_of_byte b0 =? 0x04 then Ok (drop_first uncompressed_bytes)
      else Ok uncompressed_bytes
  end.

(* ----------------------------------------------------------------- *)
(** *** test_all_wallets.py *)

Module AllWallets.
Section WithLibraries.
  Variable keccak : bytes -> bytes.
  Variable PublicKey : Type.
  Variable from_compressed_bytes : bytes -> option PublicKey.
  Variable to_bytes : PublicKey -> bytes.

(** Lines 13-31: the bytes that are hashed. *)
Definition key_bytes (public_key_hex : string) : result bytes :=
  let public_key_hex := strip_0x public_key_hex in
  let n := String.length public_key_hex in
  if Nat.eqb n 66 then
    match bytes_fromhex public_key_hex with
    | None => Error
    | Some public_key_bytes =>
        match from_compressed_bytes public_key_bytes with
        | None => Error
        | Some public_key_obj => strip_04 (to_bytes public_key_obj)
        end
    end
  else if Nat.eqb n 128 then
    match bytes_fromhex ("04" ++ public_key_hex) with
    | None => Error
    | Some uncompressed_bytes => strip_04 uncompressed_bytes
    end
  else if Nat.eqb n 130 then
    match bytes_fromhex public_key_hex with
    | None => Error
    | Some uncompressed_bytes => strip_04 uncompressed_bytes
    end
  else InvalidLength n.

(** Lines 10-42. *)
Definition derive_address_from_public_key (public_key_hex : string)
  : result string :=
  match key_bytes public_key_hex with
  | Ok uncompressed_bytes =>
      let hash_result := keccak uncompressed_bytes in
      let address := last_bytes 20 hash_result in
      Ok ("0x" ++ bytes_hex address)%string
  | InvalidLength n => InvalidLength n
  | Error => Error
  end.

End WithLibraries.
End AllWallets.

(* ----------------------------------------------------------------- *)
(** *** test_key_derivation.py *)

Module KeyDerivation.
Section WithLibraries.
  Variable keccak : bytes -> bytes.
  Variable PublicKey : Type.
  Variable from_compressed_bytes : bytes -> option PublicKey.
  Variable to_bytes : PublicKey -> bytes.

(** Lines 13-28: the bytes that are hashed. *)
Definition key_bytes (public_key_hex : string) (compressed : bool)
  : result bytes :=
  let public_key_hex := strip_0x public_key_hex in
  let n := String.length public_key_hex in
  if compressed && Nat.eqb n 66 then
    match bytes_fromhex public_key_hex with
    | None => Error
    | Some public_key_bytes =>
        match from_compressed_bytes public_key_bytes with
        | None => Error
        | Some public_key_obj => strip_04 (to_bytes public_key_obj)
        end
    end
  else if Nat.eqb n 130 then
    match bytes_fromhex public_key_hex with
    | None => Error
    | Some uncompressed_bytes => strip_04 uncompressed_bytes
    end
  else InvalidLength n.

(** Lines 10-39. *)
Definition derive_address_from_public_key (public_key_hex : string)
  (compressed : bool) : result string :=
  match key_bytes public_key_hex compressed with
  | Ok uncompressed_bytes =>
      let hash_result := keccak uncompressed_bytes in
      let address := last_bytes 20 hash_result in
      Ok ("0x" ++ bytes_hex address)%string
  | InvalidLength n => InvalidLength n
  | Error => Error
  end.

End WithLibraries.
End KeyDerivation.

Definition wallet0 : string :=
  "032c6f575345bafa41227d802afaa251f9fd1d5613a0f729b46a200ac90a92f6df".


(* ================================================================= *)
(** ** verify_tangem_signature.py *)

(** What the function prints, one constructor per [print] statement (or
    block of them); the arguments are the values interpolated in the line. *)
Inductive Event : Type :=
| Banner                                          (* lines 19-21 *)
| InvalidSignatureLength (n : nat)                (* line 28 *)
| SignatureAnalysis (r_hex s_hex v_hex expected_address : string)
                                                  (* lines 35-40 *)
| TestHeader (i : nat) (name hash_hex : string)   (* lines 44-45 *)
| Recovered (v_int : Z) (recovered_address : string)  (* line 65 *)
| Match (name : string)                           (* line 68 *)
| TrialFailed (v_int : Z)                         (* line 72 *)
| CandidateFailed                                 (* line 75 *)
| Blank                                           (* line 77 *)
| NoMatch.                                        (* line 79 *)

(** How a Python block ends: with a value, or with an exception. *)
Inductive outcome (T : Type) : Type :=
| Returned (value : T)
| Raised.
Arguments Returned {T} value.
Arguments Raised {T}.

(** A computation prints lines and then ends. *)
Definition Py (T : Type) : Type := list Event * outcome T.

Definition ret {T} (x : T) : Py T := ([], Returned x).

Definition bind {T U} (m : Py T) (f : T -> Py U) : Py U :=
  match m with
  | (out, Returned x) => let '(out', r) := f x in (out ++ out', r)
  | (out, Raised) => (out, Raised)
  end.

Definition print (e : Event) : Py unit := ([e], Returned tt).

(** A library call that may raise. *)
Definition call {T} (o : option T) : Py T :=
  match o with
  | Some x => ret x
  | None => ([], Raised)
  end.

(** [try: body except Exception: handler]: what [body] printed before it
    raised stays printed. *)
Definition try_except {T} (body handler : Py T) : Py T :=
  match body with
  | (out, Raised) => let '(out', r) := handler in (out ++ out', r)
  | done => done
  end.

Notation "x <- m ;; f" := (bind m (fun x => f))
  (at level 61, m at next level, right associativity).
Notation "m ;;; f" := (bind m (fun _ => f))
  (at level 61, right associativity).

Definition output {T} (m : Py T) : list Event := fst m.
Definition ending {T} (m : Py T) : outcome T := snd m.

(** The ordered dictionary of candidates, as [.items()] lists it. *)
Definition candidates := list (string * bytes).

(** The tuple [name, v_int, recovered_address] of line 69. *)
Definition match_result : Type := (string * Z * string)%type.

Module VerifyTangemSignature.
Section WithLibraries.
  (** [int(s, 16)]; [None] is the [ValueError]. *)
  Variable int16 : string -> option Z.
  Variable Signature : Type.
  Variable PublicKey : Type.
  (** [keys.Signature(vrs=(v, r, s))]. *)
  Variable keys_Signature : Z * Z * Z -> option Signature.
  Variable recover_public_key_from_msg_hash :
    Signature -> bytes -> option PublicKey.
  Variable to_checksum_address : PublicKey -> string.

Section Search.
  Variables r_hex s_hex expected_address : string.

(** Lines 50-72: one trial, the body of the inner loop with its [except]
    clause.  [Some] is the tuple handed to [return]; [None] lets the
    loop go on. *)
Definition trial (name : string) (hash_bytes : bytes) (v_int : Z)
  : Py (option match_result) :=
  try_except
    (r <- call (int16 r_hex) ;;
     s <- call (int16 s_hex) ;;
     let recovery_id := v_int - 27 in
     signature <- call (keys_Signature (recovery_id, r, s)) ;;
     public_key <-
       call (recover_public_key_from_msg_hash signature hash_bytes) ;;
     let recovered_address := to_checksum_address public_key in
     print (Recovered v_int recovered_address) ;;;
     if String.eqb (lower recovered_address) (lower expected_address)
     then
       print (Match name) ;;;
       ret (Some (name, v_int, recovered_address))
     else ret None)
    (print (TrialFailed v_int) ;;; ret None).

(** Line 49: [for v_int in [27, 28]]. *)
Fixpoint for_v_int (name : string) (hash_bytes : bytes) (vs : list Z)
  : Py (option match_result) :=
  match vs with
  | [] => ret None
  | v_int :: vs' =>
      found <- trial name hash_bytes v_int ;;
      match found with
      | Some res => ret (Some res)
      | None => for_v_int name hash_bytes vs'
      end
  end.

(** Lines 43-77: [for i, (name, hash_bytes) in enumerate(..., 1)], with
    the outer [try] around the inner loop. *)
Fixpoint for_candidates (i : nat) (items : candidates)
  : Py (option match_result) :=
  match items with
  | [] => ret None
  | (name, hash_bytes) :: items' =>
      print (TestHeader i name (bytes_hex hash_bytes)) ;;;
      found <- try_except
                 (for_v_int name hash_bytes [27; 28])
                 (print CandidateFailed ;;; ret None) ;;
      match found with
      | Some res => ret (Some res)
      | None => print Blank ;;; for_candidates (S i) items'
      end
  end.

End Search.

(** Lines 14-80. *)
Definition verify_signature_recovery (signature_hex : string)
  (hash_candidates : candidates) (expected_address : string)
  : Py (option match_result) :=
  print Banner ;;;
  let signature_hex := strip_0x signature_hex in
  if negb (Nat.eqb (String.length signature_hex) 130) then
    print (InvalidSignatureLength (String.length signature_hex)) ;;;
    ret None
  else
    let r_hex := substring 0 64 signature_hex in
    let s_hex := substring 64 64 signature_hex in
    let v_hex := substring 128 2 signature_hex in
    print (SignatureAnalysis r_hex s_hex v_hex expected_address) ;;;
    found <- for_candidates r_hex s_hex expected_address 1 hash_candidates ;;
    match found with
    | Some res => ret (Some res)
    | None => print NoMatch ;;; ret None
    end.

End WithLibraries.
End VerifyTangemSignature.

(* ----------------------------------------------------------------- *)
(** *** The search, as the specification words it *)

(** The first element of a list on which [f] gives a result. *)
Fixpoint first_match {T R : Type} (f : T -> option R) (ts : list T)
  : option R :=
  match ts with
  | [] => None
  | t :: ts' =>
      match f t with
      | Some res => Some res
      | None => first_match f ts'
      end
  end.

(** The trials in the order of the specification: candidates in input
    order, and for each candidate [v = 27] (parity 0), then [v = 28]
    (parity 1). *)
Definition trial_order (items : candidates) : list (string * bytes * Z) :=
  flat_map
    (fun item => [(fst item, snd item, 27); (fst item, snd item, 28)])
    items.

Module SearchSpec.
Section WithLibraries.
  Variable int16 : string -> option Z.
  Variable Signature : Type.
  Variable PublicKey : Type.
  Variable keys_Signature : Z * Z * Z -> option Signature.
  Variable recover_public_key_from_msg_hash :
    Signature -> bytes -> option PublicKey.
  Variable to_checksum_address : PublicKey -> string.
  Variables r_hex s_hex expected_address : string.

(** The address recovered from [r], [s] and a recovery parity (0 or 1);
    [None] when one of the calls raises. *)
Definition recover_with_parity (parity : Z) (hash_bytes : bytes)
  : option string :=
  match int16 r_hex with
  | None => None
  | Some r =>
      match int16 s_hex with
      | None => None
      | Some s =>
          match keys_Signature (parity, r, s) with
          | None => None
          | Some signature =>
              match recover_public_key_from_msg_hash signature hash_bytes with
              | None => None
              | Some public_key => Some (to_checksum_address public_key)
              end
          end
      end
  end.

(** One trial: the match it reports, if the recovered address is the
    expected one (compared in lower case). *)
Definition matching_trial (t : string * bytes * Z) : option match_result :=
  let '(name, hash_bytes, v_int) := t in
  match recover_with_parity (v_int - 27) hash_bytes with
  | Some recovered_address =>
      if String.eqb (lower recovered_address) (lower expected_address)
      then Some (name, v_int, recovered_address)
      else None
  | None => None
  end.

(** The search: the first trial, in [trial_order], that matches.  The
    [v] of the signature is no argument of it. *)
Definition search (items : candidates) : option match_result :=
  first_match matching_trial (trial_order items).

End WithLibraries.
End SearchSpec.

(** What a search without a match prints for the candidates, numbered
    from [i]: per candidate the header, the lines of its two trials, and
    an empty line. *)
Fixpoint exhausted_report
  (trial_output : string -> bytes -> Z -> list Event)
  (i : nat) (items : candidates) : list Event :=
  match items with
  | [] => []
  | (name, hash_bytes) :: items' =>
      TestHeader i name (bytes_hex hash_bytes)
        :: trial_output name hash_bytes 27
        ++ trial_output name hash_bytes 28
        ++ Blank :: exhausted_report trial_output (S i) items'
  end.


(** [int(s, 16)] on a non-empty string of hexadecimal digits, the only
    strings the examples below give it; any other string is refused here
    (Python also reads a sign, a 0x prefix, underscores and blanks). *)
Fixpoint hex_to_Z_from (acc : Z) (s : string) : option Z :=
  match s with
  | EmptyString => Some acc
  | String c s' =>
      match hex_value c with
      | Some d => hex_to_Z_from (16 * acc + d) s'
      | None => None
      end
  end.

Definition hex_to_Z (s : string) : option Z :=
  match s with
  | EmptyString => None
  | _ => hex_to_Z_from 0 s
  end.

(** The function run with the library instances of [Secp256k1]. *)
Abbreviation run_verify_signature_recovery :=
  (VerifyTangemSignature.verify_signature_recovery hex_to_Z
     Secp256k1.Signature Secp256k1.PublicKey Secp256k1.keys_Signature
     Secp256k1.recover_public_key_from_msg_hash
     Secp256k1.to_checksum_address).

Abbreviation run_trial :=
  (VerifyTangemSignature.trial hex_to_Z
     Secp256k1.Signature Secp256k1.PublicKey Secp256k1.keys_Signature
     Secp256k1.recover_public_key_from_msg_hash
     Secp256k1.to_checksum_address).

Abbreviation run_recover_with_parity :=
  (SearchSpec.recover_with_parity hex_to_Z
     Secp256k1.Signature Secp256k1.PublicKey Secp256k1.keys_Signature
     Secp256k1.recover_public_key_from_msg_hash
     Secp256k1.to_checksum_address).

Abbreviation run_search :=
  (SearchSpec.search hex_to_Z
     Secp256k1.Signature Secp256k1.PublicKey Secp256k1.keys_Signature
     Secp256k1.recover_public_key_from_msg_hash
     Secp256k1.to_checksum_address).

(** Data of [main] in verify_tangem_signature.py. *)
Definition safe_tx_hash : string :=
  "16691fce510878c9ddf704da6de1402d2e440ebf67338ca50619573af2780bb9".
Definition phase2_signature : string :=
  "2caa5547d2248aeec3fc0c0e9c8a9750fd872689aca34c3e1488b1f2c6ef90080a21ea327c5025fb00aba106827e7963297157570b269ddd78dce8d8d19e30a71c".
Definition phase1_signature : string :=
  "1544b3a6c4cc9dea91612c0566e1a6dfa01ef3cebef3d6b18e6ec97fe7599c6f10d12d68f706792cedc4595639265a2f66414121b6beca512e2a78f2b6e30dc11c".
Definition expected_address : string :=
  "0xe104892a4bcfb40cc2555c69e2a09050becf7ed8".

Definition bytes_of_hex (s : string) : bytes :=
  match bytes_fromhex s with Some b => b | None => [] end.

Definition safe_tx_hash_bytes : bytes := bytes_of_hex safe_tx_hash.

(** One candidate, the raw hash. *)
Definition raw_candidate : candidates :=
  [ ("Raw safeTxHash"%string, safe_tx_hash_bytes) ].

(** The raw hash twice, under the names A and B. *)
Definition two_candidates : candidates :=
  [ ("A"%string, safe_tx_hash_bytes); ("B"%string, safe_tx_hash_bytes) ].

(** The address the script calls [actual_signing_address]. *)
Definition actual_signing_address : string :=
  "0x9fe13b041b6811b717b311fce887146972b20d6a".

(** [r] and [s] of [phase2_signature] with [v = 29] (0x1d). *)
Definition phase2_signature_v29 : string :=
  "2caa5547d2248aeec3fc0c0e9c8a9750fd872689aca34c3e1488b1f2c6ef90080a21ea327c5025fb00aba106827e7963297157570b269ddd78dce8d8d19e30a71d".

(** A signature whose [r] is zero: no recovery succeeds. *)
Definition zero_r_signature : string :=
  "00000000000000000000000000000000000000000000000000000000000000000a21ea327c5025fb00aba106827e7963297157570b269ddd78dce8d8d19e30a71c".

(** A compressed key whose abscissa begins with the byte 0x04:
    [x = 0x04 * 2^248 + 4]. *)
Definition key_04 : string :=
  "020400000000000000000000000000000000000000000000000000000000000004".

(** 33 bytes whose first byte, 0x05, is no prefix of a compressed key. *)
Definition key_bad_prefix : string :=
  "052c6f575345bafa41227d802afaa251f9fd1d5613a0f729b46a200ac90a92f6df".

(** A compressed encoding whose abscissa [x = 5] is not on the curve. *)
Definition key_off_curve : string :=
  "020000000000000000000000000000000000000000000000000000000000000005".

(** The scripts' functions run with the library instances above. *)
Definition all_wallets_key_bytes : string -> result bytes :=
  AllWallets.key_bytes Secp256k1.PublicKey
    Secp256k1.from_compressed_bytes Secp256k1.to_bytes.

Definition all_wallets_derive : string -> result string :=
  AllWallets.derive_address_from_public_key Keccak.keccak256
    Secp256k1.PublicKey Secp256k1.from_compressed_bytes Secp256k1.to_bytes.

Definition key_derivation_derive : string -> bool -> result string :=
  KeyDerivation.derive_address_from_public_key Keccak.keccak256
    Secp256k1.PublicKey Secp256k1.from_compressed_bytes Secp256k1.to_bytes.

(** The raw key [X || Y] of [wallet0]. *)
Definition wallet0_raw : string :=
  "2c6f575345bafa41227d802afaa251f9fd1d5613a0f729b46a200ac90a92f6df028c0987e91b87f011145afffd9feba50ebcaa598e6b660ef481a9557b1dede1".

(** The raw key [X || Y] of which [key_04] is the compressed form. *)
Definition key_04_raw : string :=
  "040000000000000000000000000000000000000000000000000000000000000464cf321098a67cb15bbbb88b6f6f0a44916d3b5ad574c25ed48399ecfa93dd86".

(** 64 zero bytes: [(0, 0)] is not on the curve. *)
Definition zero_key : string :=
  "00000000000000000000000000000000000000000000000000000000000000000000000000000000000000000000000000000000000000000000000000000000".

(** 65 bytes that begin with 0x05. *)
Definition key_05 : string :=
  "0500000000000000000000000000000000000000000000000000000000000000000000000000000000000000000000000000000000000000000000000000000000".

(* ================================================================= *)
(** ** test_derivation_paths.py *)

(** [str(n)] for a length. *)
Definition decimal (n : nat) : string :=
  NilEmpty.string_of_uint (Nat.to_uint n).

(** [s[-n:]] on a string: the last [n] characters, the whole of [s] when
    it is shorter. *)
Definition last_chars (n : nat) (s : string) : string :=
  substring (String.length s - n) n s.

(** [s[2:]] on a string. *)
Definition drop_two (s : string) : string :=
  substring 2 (String.length s - 2) s.

(** What [test_address_transformations] prints, one constructor per
    [print] statement or block of them. *)
Inductive ReportLine : Type :=
| Title                                                (* lines 43-44 *)
| BasePublicKey (base_public_key : string)             (* line 45 *)
| TargetAddress (target_address : string)              (* line 46 *)
| EmptyLine                                            (* line 47 *)
| DirectDerivation (direct_addr : string)              (* line 51 *)
| UncompressedKey (uncomp_addr : string)               (* line 57 *)
| SuffixAnalysis (target_suffix base_suffix : string)  (* lines 64-66 *)
| Analysis                                             (* line 69 *)
| MatchFound                                           (* line 71 *)
| NoMatchFound.                                        (* line 74 *)

Module DerivationPaths.
Section WithLibraries.
  Variable keccak : bytes -> bytes.
  Variable PublicKey : Type.
  Variable from_compressed_bytes : bytes -> option PublicKey.
  Variable to_bytes : PublicKey -> bytes.
  (** The text [e] of the exception raised on an input, as the [except]
      clause prints it in [f"Error: {e}"]. *)
  Variable exception_text : string -> string.

(** Lines 14-27: the bytes that are hashed.  Only the compressed form is
    accepted. *)
Definition key_bytes (public_key_hex : string) : result bytes :=
  let public_key_hex := strip_0x public_key_hex in
  let n := String.length public_key_hex in
  if Nat.eqb n 66 then
    match bytes_fromhex public_key_hex with
    | None => Error
    | Some public_key_bytes =>
        match from_compressed_bytes public_key_bytes with
        | None => Error
        | Some public_key_obj => strip_04 (to_bytes public_key_obj)
        end
    end
  else InvalidLength n.

(** Lines 11-38, with the three shapes of the returned string kept
    apart. *)
Definition derive_address_from_public_key (public_key_hex : string)
  : result string :=
  match key_bytes public_key_hex with
  | Ok uncompressed_bytes =>
      let hash_result := keccak uncompressed_bytes in
      let address := last_bytes 20 hash_result in
      Ok ("0x" ++ bytes_hex address)%string
  | InvalidLength n => InvalidLength n
  | Error => Error
  end.

(** The string that the Python function returns. *)
Definition returned_string (public_key_hex : string) : string :=
  match derive_address_from_public_key public_key_hex with
  | Ok address => address
  | InvalidLength n => ("Invalid length: " ++ decimal n)%string
  | Error => ("Error: " ++ exception_text public_key_hex)%string
  end.

(** Lines 40-75: what is printed, and the truth value returned. *)
Definition test_address_transformations
  (base_public_key target_address : string) : list ReportLine * bool :=
  let direct_addr := returned_string base_public_key in
  let step2 :=
    if prefix "03" base_public_key || prefix "02" base_public_key then
      let uncompressed_key := drop_two base_public_key in
      let uncomp_addr := returned_string uncompressed_key in
      [UncompressedKey uncomp_addr]
    else [] in
  let target_suffix := last_chars 20 target_address in
  let base_suffix := last_chars 20 direct_addr in
  let matched := String.eqb (lower direct_addr) (lower target_address) in
  ([Title; BasePublicKey base_public_key; TargetAddress target_address;
    EmptyLine; DirectDerivation direct_addr]
     ++ step2
     ++ [SuffixAnalysis target_suffix base_suffix; Analysis;
         if matched then MatchFound else NoMatchFound],
   matched).

End WithLibraries.
End DerivationPaths.

(** The functions of test_derivation_paths.py run with the library
    instances; the text of an exception is not needed where none is
    raised, and is left empty. *)
Abbreviation derivation_paths_derive :=
  (DerivationPaths.derive_address_from_public_key Keccak.keccak256
     Secp256k1.PublicKey Secp256k1.from_compressed_bytes Secp256k1.to_bytes).

Abbreviation derivation_paths_test :=
  (DerivationPaths.test_address_transformations Keccak.keccak256
     Secp256k1.PublicKey Secp256k1.from_compressed_bytes Secp256k1.to_bytes
     (fun _ => EmptyString)).

(** The address of the script, in upper case, and without its prefix. *)
Definition actual_signing_address_upper : string :=
  "0X9FE13B041B6811B717B311FCE887146972B20D6A".

Definition actual_signing_address_bare : string :=
  "9fe13b041b6811b717b311fce887146972b20d6a".

(** A signature whose [r] is no hexadecimal number. *)
Definition non_hex_signature : string :=
  "zzaa5547d2248aeec3fc0c0e9c8a9750fd872689aca34c3e1488b1f2c6ef90080a21ea327c5025fb00aba106827e7963297157570b269ddd78dce8d8d19e30a71c".

(* ================================================================= *)
(** * Properties *)

(** ** The library instances on published vectors *)

Example keccak256_empty :
  bytes_hex (Keccak.keccak256 []) =
  "c5d2460186f7233c927e7db2dcc703c0e500b653ca82273b7bfad8045d85a470"%string.
Proof. vm_compute. reflexivity. Qed.

Example keccak256_abc :
  bytes_hex (Keccak.keccak256 [x61; x62; x63]) =
  "4e03657aea45a94fc7d47ba826c8d667c0d1e6e33a64a036ec44f58fa12d6c45"%string.
Proof. vm_compute. reflexivity. Qed.

Example keccak256_fox :
  bytes_hex
    (Keccak.keccak256
       (list_byte_of_string "The quick brown fox jumps over the lazy dog")) =
  "4d741b6f1eb29cb2a9b9911c82f56fa8d73b04959d3d9d222895df6c0b28aa15"%string.
Proof. vm_compute. reflexivity. Qed.

(** The selector of [transfer(address,uint256)] is [a9059cbb]. *)
Example keccak256_transfer_selector :
  bytes_hex
    (firstn 4
       (Keccak.keccak256 (list_byte_of_string "transfer(address,uint256)"))) =
  "a9059cbb"%string.
Proof. vm_compute. reflexivity. Qed.

(** The address of the private key 1, whose public key is the generator. *)
Example generator_address :
  Secp256k1.to_checksum_address
    (Secp256k1.encode_raw_public_key Secp256k1.Gx Secp256k1.Gy) =
  "0x7E5F4552091A69125d5DfCb7b8C2659029395Bdf"%string.
Proof. vm_compute. reflexivity. Qed.

(** EIP-55's own test addresses. *)
Example eip55_vectors :
  map (fun s => Secp256k1.checksum_address (bytes_of_hex s))
    [ "5aaeb6053f3e94c9b9a09f33669435e7ef1beaed";
      "fb6916095ca1df60bb79ce92ce3ea74c37c5d359" ]%string =
  [ "0x5aAeb6053F3E94C9b9A09f33669435E7Ef1BeAed";
    "0xfB6916095ca1df60bB79Ce92cE3Ea74c37c5d359" ]%string.
Proof. vm_compute. reflexivity. Qed.

(** ** [bytes.hex] and [bytes.fromhex] *)

Lemma bytes_hex_length (bs : bytes) :
  String.length (bytes_hex bs) = (2 * List.length bs)%nat.
Proof. induction bs as [|b bs IH]; simpl; [reflexivity | rewrite IH; lia]. Qed.

Lemma fromhex_hex_byte (b : byte) (rest : string) :
  bytes_fromhex
    (String (hex_digit (Z_of_byte b / 16))
       (String (hex_digit (Z_of_byte b mod 16)) rest)) =
  match bytes_fromhex rest with
  | Some bs => Some (b :: bs)
  | None => None
  end.
Proof. destruct b; reflexivity. Qed.

Lemma fromhex_hex (bs : bytes) : bytes_fromhex (bytes_hex bs) = Some bs.
Proof.
  induction bs as [|b bs IH]; [reflexivity|].
  cbn [bytes_hex]. rewrite fromhex_hex_byte, IH. reflexivity.
Qed.

Lemma hex_not_0x (b : byte) (rest : string) :
  prefix "0x"
    (String (hex_digit (Z_of_byte b / 16))
       (String (hex_digit (Z_of_byte b mod 16)) rest)) = false.
Proof. destruct b; reflexivity. Qed.

Lemma strip_0x_hex (bs : bytes) : strip_0x (bytes_hex bs) = bytes_hex bs.
Proof.
  destruct bs as [|b bs]; [reflexivity|].
  unfold strip_0x. cbn [bytes_hex]. rewrite hex_not_0x. reflexivity.
Qed.

Lemma keccak256_length (msg : bytes) :
  List.length (Keccak.keccak256 msg) = 32%nat.
Proof. unfold Keccak.keccak256. rewrite length_map, length_seq. reflexivity. Qed.

(** ** Address derivation *)

Section DerivationProperties.
Variable keccak : bytes -> bytes.
Variable PublicKey : Type.
Variable from_compressed_bytes : bytes -> option PublicKey.
Variable to_bytes : PublicKey -> bytes.

Local Abbreviation aw_key_bytes :=
  (AllWallets.key_bytes PublicKey from_compressed_bytes to_bytes).
Local Abbreviation aw_derive :=
  (AllWallets.derive_address_from_public_key
     keccak PublicKey from_compressed_bytes to_bytes).
Local Abbreviation kd_key_bytes :=
  (KeyDerivation.key_bytes PublicKey from_compressed_bytes to_bytes).
Local Abbreviation kd_derive :=
  (KeyDerivation.derive_address_from_public_key
     keccak PublicKey from_compressed_bytes to_bytes).

(** The address string printed for the bytes that are hashed. *)
Local Abbreviation address_of b :=
  ("0x" ++ bytes_hex (last_bytes 20 (keccak b)))%string.

Lemma aw_derive_of_key_bytes (s : string) (b : bytes) :
  aw_key_bytes s = Ok b -> aw_derive s = Ok (address_of b).
Proof.
  intros H. unfold AllWallets.derive_address_from_public_key.
  rewrite H. reflexivity.
Qed.

Lemma kd_derive_of_key_bytes (s : string) (c : bool) (b : bytes) :
  kd_key_bytes s c = Ok b -> kd_derive s c = Ok (address_of b).
Proof.
  intros H. unfold KeyDerivation.derive_address_from_public_key.
  rewrite H. reflexivity.
Qed.

(** 64 raw bytes, test_all_wallets.py: the prefix is added, then
    removed again. *)
Lemma aw_key_bytes_raw (pk : bytes) :
  List.length pk = 64%nat -> aw_key_bytes (bytes_hex pk) = Ok pk.
Proof.
  intros Hlen. unfold AllWallets.key_bytes.
  rewrite strip_0x_hex, bytes_hex_length, Hlen.
  change (Nat.eqb (2 * 64) 66) with false.
  change (Nat.eqb (2 * 64) 128) with true. cbv iota.
  change ("04" ++ bytes_hex pk)%string with (bytes_hex (x04 :: pk)).
  rewrite fromhex_hex. reflexivity.
Qed.

(** 65 bytes, in both scripts: the buffer goes to [strip_04] as it is. *)
Lemma aw_key_bytes_65 (b : bytes) :
  List.length b = 65%nat -> aw_key_bytes (bytes_hex b) = strip_04 b.
Proof.
  intros Hlen. unfold AllWallets.key_bytes.
  rewrite strip_0x_hex, bytes_hex_length, Hlen.
  change (Nat.eqb (2 * 65) 66) with false.
  change (Nat.eqb (2 * 65) 128) with false.
  change (Nat.eqb (2 * 65) 130) with true. cbv iota.
  rewrite fromhex_hex. reflexivity.
Qed.

Lemma kd_key_bytes_65 (b : bytes) (c : bool) :
  List.length b = 65%nat -> kd_key_bytes (bytes_hex b) c = strip_04 b.
Proof.
  intros Hlen. unfold KeyDerivation.key_bytes.
  rewrite strip_0x_hex, bytes_hex_length, Hlen.
  change (Nat.eqb (2 * 65) 66) with false. rewrite andb_false_r.
  change (Nat.eqb (2 * 65) 130) with true. cbv iota.
  rewrite fromhex_hex. reflexivity.
Qed.

(** 33 bytes, in both scripts: the library decompresses, and the key's
    own bytes go to [strip_04]. *)
Lemma aw_key_bytes_33 (b : bytes) :
  List.length b = 33%nat ->
  aw_key_bytes (bytes_hex b) =
  match from_compressed_bytes b with
  | Some k => strip_04 (to_bytes k)
  | None => Error
  end.
Proof.
  intros Hlen. unfold AllWallets.key_bytes.
  rewrite strip_0x_hex, bytes_hex_length, Hlen.
  change (Nat.eqb (2 * 33) 66) with true. cbv iota.
  rewrite fromhex_hex. reflexivity.
Qed.

Lemma strip_04_prefixed (pk : bytes) : strip_04 (x04 :: pk) = Ok pk.
Proof. reflexivity. Qed.

Lemma strip_04_other (b0 : byte) (pk : bytes) :
  Z_of_byte b0 <> 4 -> strip_04 (b0 :: pk) = Ok (b0 :: pk).
Proof.
  intros Hb. unfold strip_04.
  destruct (Z.eqb_spec (Z_of_byte b0) 4); [contradiction | reflexivity].
Qed.

(** C1. For every 64-byte public key [X || Y], given raw (64 bytes, to
    test_all_wallets.py) or with the 0x04 prefix (65 bytes, to either
    script), the address returned is "0x" followed by the hex of the
    last 20 bytes of the 32-byte Keccak-256 digest of those 64 bytes,
    that is of the digest without its first 12 bytes. *)
Theorem derive_address_is_last_20_bytes_of_digest
  (pk : bytes) (compressed : bool) :
  List.length pk = 64%nat ->
  List.length (keccak pk) = 32%nat ->
  aw_derive (bytes_hex pk) =
    Ok ("0x" ++ bytes_hex (skipn 12 (keccak pk)))%string
  /\ aw_derive (bytes_hex (x04 :: pk)) =
    Ok ("0x" ++ bytes_hex (skipn 12 (keccak pk)))%string
  /\ kd_derive (bytes_hex (x04 :: pk)) compressed =
    Ok ("0x" ++ bytes_hex (skipn 12 (keccak pk)))%string.
Proof.
  intros Hlen Hdigest.
  assert (Hlast : last_bytes 20 (keccak pk) = skipn 12 (keccak pk))
    by (unfold last_bytes; rewrite Hdigest; reflexivity).
  rewrite <- Hlast.
  assert (H65 : List.length (x04 :: pk) = 65%nat) by (simpl; lia).
  repeat split.
  - apply aw_derive_of_key_bytes, aw_key_bytes_raw, Hlen.
  - apply aw_derive_of_key_bytes.
    rewrite (aw_key_bytes_65 _ H65). apply strip_04_prefixed.
  - apply kd_derive_of_key_bytes.
    rewrite (kd_key_bytes_65 _ compressed H65). apply strip_04_prefixed.
Qed.

Lemma kd_key_bytes_33 (b : bytes) :
  List.length b = 33%nat ->
  kd_key_bytes (bytes_hex b) true =
  match from_compressed_bytes b with
  | Some k => strip_04 (to_bytes k)
  | None => Error
  end.
Proof.
  intros Hlen. unfold KeyDerivation.key_bytes.
  rewrite strip_0x_hex, bytes_hex_length, Hlen.
  change (Nat.eqb (2 * 33) 66) with true. cbv iota.
  rewrite fromhex_hex. reflexivity.
Qed.

(** On a string of 66 characters the two scripts run the same statements. *)
Lemma compressed_branch_agrees (s : string) :
  String.length (strip_0x s) = 66%nat ->
  aw_key_bytes s = kd_key_bytes s true.
Proof.
  intros Hlen. unfold AllWallets.key_bytes, KeyDerivation.key_bytes.
  rewrite Hlen. reflexivity.
Qed.

(** C10. For every 33-byte compressed key that the library decompresses
    to a 64-byte key, [derive_address_from_public_key] of
    test_all_wallets.py and of test_key_derivation.py (with
    [compressed=True]) return the same address string. *)
Theorem compressed_derivations_agree (b : bytes) (k : PublicKey) :
  List.length b = 33%nat ->
  from_compressed_bytes b = Some k ->
  List.length (to_bytes k) = 64%nat ->
  exists address : string,
    aw_derive (bytes_hex b) = Ok address
    /\ kd_derive (bytes_hex b) true = Ok address.
Proof.
  intros Hlen Hk H64.
  assert (Hs : String.length (strip_0x (bytes_hex b)) = 66%nat)
    by (rewrite strip_0x_hex, bytes_hex_length, Hlen; reflexivity).
  pose proof (compressed_branch_agrees _ Hs) as Hsame.
  pose proof (aw_key_bytes_33 b Hlen) as Haw. rewrite Hk in Haw.
  destruct (to_bytes k) as [|b0 rest] eqn:Hbytes; [discriminate H64|].
  assert (Hok : exists hashed, strip_04 (b0 :: rest) = Ok hashed).
  { unfold strip_04. destruct (Z_of_byte b0 =? 4); eauto. }
  destruct Hok as [hashed Hok]. rewrite Hok in Haw.
  exists (address_of hashed). split.
  - apply aw_derive_of_key_bytes, Haw.
  - apply kd_derive_of_key_bytes. rewrite <- Hsame. exact Haw.
Qed.

(** C5, as the code has it.  A 65-byte input that begins with 0x04 gives
    the address of the 64 bytes that follow, the same as the 64-byte
    input gives in test_all_wallets.py.  A 65-byte input that begins with
    another byte is not refused: all 65 bytes are hashed and an address
    is returned. *)
Theorem prefixed_key_is_stripped_other_prefix_is_hashed
  (b0 : byte) (pk : bytes) (compressed : bool) :
  List.length pk = 64%nat ->
  (aw_derive (bytes_hex (x04 :: pk)) = aw_derive (bytes_hex pk)
   /\ aw_derive (bytes_hex (x04 :: pk)) = Ok (address_of pk)
   /\ kd_derive (bytes_hex (x04 :: pk)) compressed = Ok (address_of pk))
  /\ (Z_of_byte b0 <> 4 ->
      aw_derive (bytes_hex (b0 :: pk)) = Ok (address_of (b0 :: pk))
      /\ kd_derive (bytes_hex (b0 :: pk)) compressed =
         Ok (address_of (b0 :: pk))).
Proof.
  intros Hlen.
  assert (H65 : forall c, List.length (c :: pk) = 65%nat)
    by (intros c; simpl; lia).
  assert (Hraw : aw_derive (bytes_hex pk) = Ok (address_of pk))
    by (apply aw_derive_of_key_bytes, aw_key_bytes_raw, Hlen).
  assert (Haw : aw_derive (bytes_hex (x04 :: pk)) = Ok (address_of pk)).
  { apply aw_derive_of_key_bytes.
    rewrite (aw_key_bytes_65 _ (H65 x04)). apply strip_04_prefixed. }
  split; [split; [|split]|].
  - rewrite Haw, Hraw. reflexivity.
  - exact Haw.
  - apply kd_derive_of_key_bytes.
    rewrite (kd_key_bytes_65 _ compressed (H65 x04)). apply strip_04_prefixed.
  - intros Hb0. split.
    + apply aw_derive_of_key_bytes.
      rewrite (aw_key_bytes_65 _ (H65 b0)). apply strip_04_other, Hb0.
    + apply kd_derive_of_key_bytes.
      rewrite (kd_key_bytes_65 _ compressed (H65 b0)).
      apply strip_04_other, Hb0.
Qed.

(** C6, as the code has it.  A 33-byte input that the library refuses to
    decompress gives the error result.  A 64-byte input is not checked
    against the curve equation: test_all_wallets.py returns an address
    for any 64 bytes, and test_key_derivation.py reports the length (128
    characters).  A 10-byte input is reported as an invalid length (20
    characters) by both. *)
Theorem only_compressed_keys_are_validated
  (c33 pk short : bytes) (compressed : bool) :
  List.length c33 = 33%nat ->
  from_compressed_bytes c33 = None ->
  List.length pk = 64%nat ->
  List.length short = 10%nat ->
  (aw_derive (bytes_hex c33) = Error
   /\ kd_derive (bytes_hex c33) true = Error)
  /\ (aw_derive (bytes_hex pk) = Ok (address_of pk)
      /\ kd_derive (bytes_hex pk) compressed = InvalidLength 128)
  /\ (aw_derive (bytes_hex short) = InvalidLength 20
      /\ kd_derive (bytes_hex short) compressed = InvalidLength 20).
Proof.
  intros H33 Hnone H64 H10. repeat split.
  - unfold AllWallets.derive_address_from_public_key.
    rewrite (aw_key_bytes_33 _ H33), Hnone. reflexivity.
  - unfold KeyDerivation.derive_address_from_public_key.
    rewrite (kd_key_bytes_33 _ H33), Hnone. reflexivity.
  - apply aw_derive_of_key_bytes, aw_key_bytes_raw, H64.
  - unfold KeyDerivation.derive_address_from_public_key,
      KeyDerivation.key_bytes.
    rewrite strip_0x_hex, bytes_hex_length, H64.
    change (Nat.eqb (2 * 64) 66) with false. rewrite andb_false_r.
    reflexivity.
  - unfold AllWallets.derive_address_from_public_key, AllWallets.key_bytes.
    rewrite strip_0x_hex, bytes_hex_length, H10. reflexivity.
  - unfold KeyDerivation.derive_address_from_public_key,
      KeyDerivation.key_bytes.
    rewrite strip_0x_hex, bytes_hex_length, H10.
    change (Nat.eqb (2 * 10) 66) with false. rewrite andb_false_r.
    reflexivity.
Qed.

(** The three encodings of a key give the same bytes to hash, as long as
    the abscissa does not begin with the byte 0x04. *)
Lemma encodings_agree_unless_abscissa_starts_with_04
  (c33 : bytes) (k : PublicKey) (x0 : byte) (rest : bytes) :
  List.length c33 = 33%nat ->
  from_compressed_bytes c33 = Some k ->
  to_bytes k = x0 :: rest ->
  List.length rest = 63%nat ->
  Z_of_byte x0 <> 4 ->
  aw_key_bytes (bytes_hex c33) = Ok (x0 :: rest)
  /\ aw_key_bytes (bytes_hex (x0 :: rest)) = Ok (x0 :: rest)
  /\ aw_key_bytes (bytes_hex (x04 :: x0 :: rest)) = Ok (x0 :: rest).
Proof.
  intros H33 Hk Hbytes Hrest Hx0. repeat split.
  - rewrite (aw_key_bytes_33 _ H33), Hk, Hbytes. apply strip_04_other, Hx0.
  - apply aw_key_bytes_raw. simpl. lia.
  - rewrite aw_key_bytes_65 by (simpl; lia). apply strip_04_prefixed.
Qed.

End DerivationProperties.


(** ** The scripts on concrete keys *)

(** C3. The compressed key of wallet 0 is decompressed to its 64-byte
    form [X || Y], and both scripts derive the address
    0x9fe13b041b6811b717b311fce887146972b20d6a from it. *)
Theorem wallet0_derives_the_signing_address :
  all_wallets_key_bytes wallet0 = Ok (bytes_of_hex wallet0_raw)
  /\ List.length (bytes_of_hex wallet0_raw) = 64%nat
  /\ key_derivation_derive wallet0 true =
     Ok "0x9fe13b041b6811b717b311fce887146972b20d6a"%string
  /\ all_wallets_derive wallet0 =
     Ok "0x9fe13b041b6811b717b311fce887146972b20d6a"%string.
Proof. vm_compute. repeat split; reflexivity. Qed.

(** The first 20 bytes of that digest are another string. *)
Example digest_head_is_not_the_address :
  bytes_hex (firstn 20 (Keccak.keccak256 (bytes_of_hex wallet0_raw))) =
    "58054d516474a3ae100b2b729fe13b041b6811b7"%string
  /\ bytes_hex (skipn 12 (Keccak.keccak256 (bytes_of_hex wallet0_raw))) =
    "9fe13b041b6811b717b311fce887146972b20d6a"%string.
Proof. vm_compute. split; reflexivity. Qed.

(** The key of wallet 0, raw and prefixed. *)
Lemma derive_address_is_last_20_bytes_of_digest_witness :
  (List.length (bytes_of_hex wallet0_raw) = 64%nat
   /\ List.length (Keccak.keccak256 (bytes_of_hex wallet0_raw)) = 32%nat)
  /\ (all_wallets_derive (bytes_hex (bytes_of_hex wallet0_raw)) =
        Ok ("0x" ++ bytes_hex
              (skipn 12 (Keccak.keccak256 (bytes_of_hex wallet0_raw))))%string
      /\ all_wallets_derive (bytes_hex (x04 :: bytes_of_hex wallet0_raw)) =
        Ok ("0x" ++ bytes_hex
              (skipn 12 (Keccak.keccak256 (bytes_of_hex wallet0_raw))))%string
      /\ key_derivation_derive
           (bytes_hex (x04 :: bytes_of_hex wallet0_raw)) true =
        Ok ("0x" ++ bytes_hex
              (skipn 12 (Keccak.keccak256 (bytes_of_hex wallet0_raw))))%string).
Proof.
  split; [split; vm_compute; reflexivity |].
  apply (derive_address_is_last_20_bytes_of_digest
           Keccak.keccak256 Secp256k1.PublicKey
           Secp256k1.from_compressed_bytes Secp256k1.to_bytes
           (bytes_of_hex wallet0_raw) true);
    vm_compute; reflexivity.
Defined.

(** The compressed key of wallet 0. *)
Lemma compressed_derivations_agree_witness :
  (List.length (bytes_of_hex wallet0) = 33%nat
   /\ Secp256k1.from_compressed_bytes (bytes_of_hex wallet0) =
      Some (bytes_of_hex wallet0_raw)
   /\ List.length (Secp256k1.to_bytes (bytes_of_hex wallet0_raw)) = 64%nat)
  /\ exists address : string,
      all_wallets_derive (bytes_hex (bytes_of_hex wallet0)) = Ok address
      /\ key_derivation_derive (bytes_hex (bytes_of_hex wallet0)) true =
         Ok address.
Proof.
  split; [repeat split; vm_compute; reflexivity |].
  apply (compressed_derivations_agree
           Keccak.keccak256 Secp256k1.PublicKey
           Secp256k1.from_compressed_bytes Secp256k1.to_bytes
           (bytes_of_hex wallet0) (bytes_of_hex wallet0_raw));
    vm_compute; reflexivity.
Defined.

(** A 65-byte input that begins with 0x05 is not refused by either
    script: an address comes back. *)
Lemma prefix_05_is_hashed_not_rejected :
  List.length (bytes_of_hex key_05) = 65%nat
  /\ all_wallets_derive key_05 =
     Ok "0xbf8ff1a7bddd6e755456a7dc31fea3cbc3e81bc1"%string
  /\ key_derivation_derive key_05 true =
     Ok "0xbf8ff1a7bddd6e755456a7dc31fea3cbc3e81bc1"%string.
Proof. vm_compute. repeat split; reflexivity. Qed.

(** The 64 zero bytes, behind the prefixes 0x04 and 0x05. *)
Lemma prefixed_key_is_stripped_other_prefix_is_hashed_witness :
  (List.length (bytes_of_hex zero_key) = 64%nat /\ Z_of_byte x05 <> 4)
  /\ (all_wallets_derive (bytes_hex (x04 :: bytes_of_hex zero_key)) =
        all_wallets_derive (bytes_hex (bytes_of_hex zero_key))
      /\ all_wallets_derive (bytes_hex (x05 :: bytes_of_hex zero_key)) =
        Ok ("0x" ++ bytes_hex
              (last_bytes 20
                 (Keccak.keccak256 (x05 :: bytes_of_hex zero_key))))%string).
Proof.
  assert (Hlen : List.length (bytes_of_hex zero_key) = 64%nat)
    by (vm_compute; reflexivity).
  assert (Hb0 : Z_of_byte x05 <> 4) by (vm_compute; discriminate).
  pose proof (prefixed_key_is_stripped_other_prefix_is_hashed
                Keccak.keccak256 Secp256k1.PublicKey
                Secp256k1.from_compressed_bytes Secp256k1.to_bytes
                x05 (bytes_of_hex zero_key) true Hlen) as [[H1 _] H2].
  split; [split; assumption |].
  split; [exact H1 | exact (proj1 (H2 Hb0))].
Defined.

(** [(0, 0)] is not a point of the curve, and test_all_wallets.py derives
    an address from its 64 bytes all the same. *)
Lemma off_curve_raw_key_is_accepted :
  Secp256k1.on_curve 0%bigZ 0%bigZ = false
  /\ List.length (bytes_of_hex zero_key) = 64%nat
  /\ all_wallets_derive zero_key =
     Ok "0x3f17f1962b36e491b30a40b2405849e597ba5fb5"%string.
Proof. vm_compute. repeat split; reflexivity. Qed.

(** 33 bytes with the prefix 0x05, which the library refuses whatever its
    backend, the 64 zero bytes, and ten zero bytes. *)
Lemma only_compressed_keys_are_validated_witness :
  (List.length (bytes_of_hex key_bad_prefix) = 33%nat
   /\ Secp256k1.from_compressed_bytes (bytes_of_hex key_bad_prefix) = None
   /\ List.length (bytes_of_hex zero_key) = 64%nat
   /\ List.length (repeat x00 10) = 10%nat)
  /\ (all_wallets_derive (bytes_hex (bytes_of_hex key_bad_prefix)) = Error
      /\ key_derivation_derive (bytes_hex (bytes_of_hex key_bad_prefix)) true
         = Error)
  /\ (all_wallets_derive (bytes_hex (bytes_of_hex zero_key)) =
        Ok ("0x" ++ bytes_hex
              (last_bytes 20 (Keccak.keccak256 (bytes_of_hex zero_key))))%string
      /\ key_derivation_derive (bytes_hex (bytes_of_hex zero_key)) true =
         InvalidLength 128)
  /\ (all_wallets_derive (bytes_hex (repeat x00 10)) = InvalidLength 20
      /\ key_derivation_derive (bytes_hex (repeat x00 10)) true =
         InvalidLength 20).
Proof.
  split; [repeat split; vm_compute; reflexivity |].
  apply (only_compressed_keys_are_validated
           Keccak.keccak256 Secp256k1.PublicKey
           Secp256k1.from_compressed_bytes Secp256k1.to_bytes
           (bytes_of_hex key_bad_prefix) (bytes_of_hex zero_key)
           (repeat x00 10) true);
    vm_compute; reflexivity.
Defined.

(** An abscissa that is not on the curve is not refused by the library's
    decompression: the compressed encoding with [x = 5] gives an address
    in both scripts. *)
Example off_curve_compressed_key_is_accepted :
  Secp256k1.on_curve 5%bigZ
    (Secp256k1.pow_mod (5 * 5 * 5 + 7)%bigZ
       ((Secp256k1.P + 1) / 4)%bigZ Secp256k1.P) = false
  /\ all_wallets_derive key_off_curve =
     Ok "0x02dbab8ecfc80ac566db163fe0973fba40a3f155"%string
  /\ key_derivation_derive key_off_curve true =
     Ok "0x02dbab8ecfc80ac566db163fe0973fba40a3f155"%string.
Proof. vm_compute. repeat split; reflexivity. Qed.

(** C8 at a key whose abscissa begins with 0x04.  [key_04] is the
    compressed form of the curve point [key_04_raw].  The compressed
    path takes the first byte of the abscissa for a prefix and hashes 63
    bytes; the raw and the prefixed paths hash the 64 bytes of the key.
    The addresses differ. *)
Theorem compressed_key_with_04_abscissa_loses_a_byte :
  Secp256k1.from_compressed_bytes (bytes_of_hex key_04) =
    Some (bytes_of_hex key_04_raw)
  /\ Secp256k1.to_compressed_bytes (bytes_of_hex key_04_raw) =
     bytes_of_hex key_04
  /\ all_wallets_key_bytes key_04 = Ok (skipn 1 (bytes_of_hex key_04_raw))
  /\ all_wallets_key_bytes key_04_raw = Ok (bytes_of_hex key_04_raw)
  /\ all_wallets_key_bytes ("04" ++ key_04_raw) = Ok (bytes_of_hex key_04_raw)
  /\ all_wallets_derive key_04 =
     Ok "0x8c224b425720f67a86baec77f383e40ecaf3b067"%string
  /\ all_wallets_derive key_04_raw =
     Ok "0x1ea80676e86cd34fd4ce05f55462129a7e4115f9"%string
  /\ all_wallets_derive ("04" ++ key_04_raw) =
     Ok "0x1ea80676e86cd34fd4ce05f55462129a7e4115f9"%string.
Proof. vm_compute. repeat split; reflexivity. Qed.

(** ** The recovery search *)

Lemma bind_returned {T U : Type} (out : list Event) (x : T) (f : T -> Py U) :
  bind (out, Returned x) f = (out ++ output (f x), ending (f x)).
Proof. unfold bind. destruct (f x). reflexivity. Qed.

Lemma first_match_none {T R : Type} (f : T -> option R) (ts : list T) :
  first_match f ts = None <-> forall t, In t ts -> f t = None.
Proof.
  induction ts as [|t ts IH]; simpl.
  - split; [intros _ t [] | reflexivity].
  - destruct (f t) as [res|] eqn:Hft.
    + split; [discriminate|]. intros H.
      rewrite (H t (or_introl eq_refl)) in Hft. discriminate.
    + rewrite IH. split.
      * intros H t' [<-|Hin]; [exact Hft | apply H, Hin].
      * intros H t' Hin. apply H. right. exact Hin.
Qed.

(** [first_match] gives the result at the least index that has one. *)
Lemma first_match_least {T R : Type} (f : T -> option R) (ts : list T)
  (res : R) :
  first_match f ts = Some res <->
  exists (i : nat) (t : T),
    nth_error ts i = Some t /\ f t = Some res
    /\ forall (j : nat) (t' : T),
        (j < i)%nat -> nth_error ts j = Some t' -> f t' = None.
Proof.
  induction ts as [|t ts IH]; simpl.
  - split; [discriminate|]. intros (i & t & Hnth & _).
    destruct i; discriminate Hnth.
  - destruct (f t) as [r|] eqn:Hft.
    + split.
      * intros [= <-]. exists 0%nat, t. repeat split; [exact Hft|].
        intros j t' Hj. lia.
      * intros (i & t0 & Hnth & Hres & Hbefore). destruct i as [|i].
        -- injection Hnth as <-. congruence.
        -- specialize (Hbefore 0%nat t (Nat.lt_0_succ i) eq_refl). congruence.
    + rewrite IH. split.
      * intros (i & t0 & Hnth & Hres & Hbefore).
        exists (S i), t0. repeat split; [exact Hnth | exact Hres |].
        intros [|j] t' Hj Hn; [injection Hn as <-; exact Hft|].
        apply (Hbefore j t'); [lia | exact Hn].
      * intros (i & t0 & Hnth & Hres & Hbefore). destruct i as [|i].
        -- injection Hnth as <-. congruence.
        -- exists i, t0. repeat split; [exact Hnth | exact Hres |].
           intros j t' Hj Hn. apply (Hbefore (S j) t'); [lia | exact Hn].
Qed.

Lemma in_trial_order (items : candidates) (name : string) (h : bytes)
  (v : Z) :
  In (name, h, v) (trial_order items) <->
  In (name, h) items /\ (v = 27 \/ v = 28).
Proof.
  unfold trial_order. rewrite in_flat_map. split.
  - intros ([n' h'] & Hin & Hv). simpl in Hv.
    destruct Hv as [[= <- <- <-]|[[= <- <- <-]|[]]]; auto.
  - intros (Hin & Hv). exists (name, h). split; [exact Hin|].
    simpl. destruct Hv as [->| ->]; auto.
Qed.

(** A slice of a prefix is the slice of the whole string. *)
Lemma substring_of_prefix (n m k : nat) (s : string) :
  (n + m <= k)%nat ->
  substring n m (substring 0 k s) = substring n m s.
Proof.
  revert n m k. induction s as [|c s IH]; intros n m k Hle.
  - destruct k; destruct n; destruct m; reflexivity.
  - destruct k as [|k].
    + assert (n = 0%nat) by lia. assert (m = 0%nat) by lia. subst.
      reflexivity.
    + cbn [substring]. destruct n as [|n].
      * destruct m as [|m]; [reflexivity|].
        cbn [substring]. rewrite IH by lia. reflexivity.
      * cbn [substring]. apply IH. lia.
Qed.

Section SearchProperties.
  Variable int16 : string -> option Z.
  Variable Signature : Type.
  Variable PublicKey : Type.
  Variable keys_Signature : Z * Z * Z -> option Signature.
  Variable recover_public_key_from_msg_hash :
    Signature -> bytes -> option PublicKey.
  Variable to_checksum_address : PublicKey -> string.

  Local Abbreviation trial :=
    (VerifyTangemSignature.trial int16 Signature PublicKey keys_Signature
       recover_public_key_from_msg_hash to_checksum_address).
  Local Abbreviation for_candidates :=
    (VerifyTangemSignature.for_candidates int16 Signature PublicKey
       keys_Signature recover_public_key_from_msg_hash to_checksum_address).
  Local Abbreviation verify_signature_recovery :=
    (VerifyTangemSignature.verify_signature_recovery int16 Signature
       PublicKey keys_Signature recover_public_key_from_msg_hash
       to_checksum_address).
  Local Abbreviation recover_with_parity :=
    (SearchSpec.recover_with_parity int16 Signature PublicKey keys_Signature
       recover_public_key_from_msg_hash to_checksum_address).
  Local Abbreviation matching_trial :=
    (SearchSpec.matching_trial int16 Signature PublicKey keys_Signature
       recover_public_key_from_msg_hash to_checksum_address).
  Local Abbreviation search :=
    (SearchSpec.search int16 Signature PublicKey keys_Signature
       recover_public_key_from_msg_hash to_checksum_address).

Section FixedSignature.
  Variables r_hex s_hex expected_address : string.

(** The three ways a trial can go. *)
Lemma trial_cases (name : string) (h : bytes) (v : Z) :
  trial r_hex s_hex expected_address name h v =
  match recover_with_parity r_hex s_hex (v - 27) h with
  | None => ([TrialFailed v], Returned None)
  | Some a =>
      if String.eqb (lower a) (lower expected_address)
      then ([Recovered v a; Match name], Returned (Some (name, v, a)))
      else ([Recovered v a], Returned None)
  end.
Proof.
  unfold VerifyTangemSignature.trial, SearchSpec.recover_with_parity.
  destruct (int16 r_hex) as [r|]; cbn; [|reflexivity].
  destruct (int16 s_hex) as [s|]; cbn; [|reflexivity].
  destruct (keys_Signature (v - 27, r, s)) as [sig|]; cbn; [|reflexivity].
  destruct (recover_public_key_from_msg_hash sig h) as [pk|]; cbn;
    [|reflexivity].
  destruct (String.eqb _ _); reflexivity.
Qed.

Lemma trial_ending (name : string) (h : bytes) (v : Z) :
  ending (trial r_hex s_hex expected_address name h v) =
  Returned (matching_trial r_hex s_hex expected_address (name, h, v)).
Proof.
  rewrite trial_cases. unfold SearchSpec.matching_trial.
  destruct (recover_with_parity r_hex s_hex (v - 27) h) as [a|];
    [|reflexivity].
  destruct (String.eqb _ _); reflexivity.
Qed.

Lemma trial_output_of_match (name : string) (h : bytes) (v : Z)
  (res : match_result) :
  matching_trial r_hex s_hex expected_address (name, h, v) = Some res ->
  exists a : string,
    res = (name, v, a)
    /\ output (trial r_hex s_hex expected_address name h v) =
       [Recovered v a; Match name].
Proof.
  rewrite trial_cases. unfold SearchSpec.matching_trial.
  destruct (recover_with_parity r_hex s_hex (v - 27) h) as [a|];
    [|discriminate].
  destruct (String.eqb _ _); [|discriminate].
  intros [= <-]. exists a. split; reflexivity.
Qed.

(** One round of the outer loop. *)
Lemma for_candidates_cons (i : nat) (name : string) (h : bytes)
  (items : candidates) :
  for_candidates r_hex s_hex expected_address i ((name, h) :: items) =
  match matching_trial r_hex s_hex expected_address (name, h, 27) with
  | Some res =>
      (TestHeader i name (bytes_hex h)
         :: output (trial r_hex s_hex expected_address name h 27),
       Returned (Some res))
  | None =>
      match matching_trial r_hex s_hex expected_address (name, h, 28) with
      | Some res =>
          (TestHeader i name (bytes_hex h)
             :: output (trial r_hex s_hex expected_address name h 27)
             ++ output (trial r_hex s_hex expected_address name h 28),
           Returned (Some res))
      | None =>
          (TestHeader i name (bytes_hex h)
             :: output (trial r_hex s_hex expected_address name h 27)
             ++ output (trial r_hex s_hex expected_address name h 28)
             ++ Blank
             :: output (for_candidates r_hex s_hex expected_address
                          (S i) items),
           ending (for_candidates r_hex s_hex expected_address (S i) items))
      end
  end.
Proof.
  cbn [VerifyTangemSignature.for_candidates VerifyTangemSignature.for_v_int].
  pose proof (trial_ending name h 27) as E27.
  pose proof (trial_ending name h 28) as E28.
  destruct (trial r_hex s_hex expected_address name h 27) as [o27 e27].
  destruct (trial r_hex s_hex expected_address name h 28) as [o28 e28].
  cbn [ending snd] in E27, E28. subst e27 e28.
  destruct (matching_trial r_hex s_hex expected_address (name, h, 27));
    destruct (matching_trial r_hex s_hex expected_address (name, h, 28));
    cbn;
    destruct (for_candidates r_hex s_hex expected_address (S i) items);
    cbn; rewrite ?app_nil_r, <- ?app_assoc; reflexivity.
Qed.

(** The loop ends with what the specification's search finds. *)
Lemma for_candidates_ending (i : nat) (items : candidates) :
  ending (for_candidates r_hex s_hex expected_address i items) =
  Returned (search r_hex s_hex expected_address items).
Proof.
  revert i. induction items as [|[name h] items IH]; intros i;
    [reflexivity|].
  rewrite for_candidates_cons. unfold SearchSpec.search, trial_order.
  cbn [flat_map app first_match fst snd].
  destruct (matching_trial r_hex s_hex expected_address (name, h, 27));
    [reflexivity|].
  destruct (matching_trial r_hex s_hex expected_address (name, h, 28));
    [reflexivity|].
  cbn [ending snd]. apply IH.
Qed.

(** Without a match, every trial of every candidate is printed. *)
Lemma for_candidates_exhausted (i : nat) (items : candidates) :
  search r_hex s_hex expected_address items = None ->
  output (for_candidates r_hex s_hex expected_address i items) =
  exhausted_report
    (fun name h v => output (trial r_hex s_hex expected_address name h v))
    i items.
Proof.
  revert i. induction items as [|[name h] items IH]; intros i Hnone;
    [reflexivity|].
  rewrite for_candidates_cons. revert Hnone.
  unfold SearchSpec.search, trial_order.
  cbn [flat_map app first_match fst snd exhausted_report].
  destruct (matching_trial r_hex s_hex expected_address (name, h, 27));
    [discriminate|].
  destruct (matching_trial r_hex s_hex expected_address (name, h, 28));
    [discriminate|].
  intros Hnone. cbn [output fst]. rewrite (IH (S i) Hnone). reflexivity.
Qed.

(** With a match, the line of the match is the last one printed. *)
Lemma for_candidates_stops_at_match (i : nat) (items : candidates)
  (name : string) (v : Z) (a : string) :
  search r_hex s_hex expected_address items = Some (name, v, a) ->
  exists before : list Event,
    output (for_candidates r_hex s_hex expected_address i items) =
    before ++ [Recovered v a; Match name].
Proof.
  revert i. induction items as [|[n h] items IH]; intros i;
    [discriminate|].
  rewrite for_candidates_cons.
  unfold SearchSpec.search, trial_order.
  cbn [flat_map app first_match fst snd].
  destruct (matching_trial r_hex s_hex expected_address (n, h, 27))
    as [res|] eqn:H27.
  - intros [= ->]. destruct (trial_output_of_match _ _ _ _ H27)
      as (a' & Heq & Hout).
    inversion Heq; subst; clear Heq.
    rewrite Hout. exists [TestHeader i n (bytes_hex h)]. reflexivity.
  - destruct (matching_trial r_hex s_hex expected_address (n, h, 28))
      as [res|] eqn:H28.
    + intros [= ->]. destruct (trial_output_of_match _ _ _ _ H28)
        as (a' & Heq & Hout).
      inversion Heq; subst; clear Heq.
      rewrite Hout.
      exists (TestHeader i n (bytes_hex h)
                :: output (trial r_hex s_hex expected_address n h 27)).
      cbn [output fst]. rewrite <- app_comm_cons. reflexivity.
    + intros Hrest. destruct (IH (S i) Hrest) as [before Hout].
      cbn [output fst]. rewrite Hout.
      exists (TestHeader i n (bytes_hex h)
                :: output (trial r_hex s_hex expected_address n h 27)
                ++ output (trial r_hex s_hex expected_address n h 28)
                ++ Blank :: before).
      rewrite <- !app_comm_cons, <- !app_assoc, <- app_comm_cons.
      reflexivity.
Qed.

End FixedSignature.
  Local Abbreviation r_of sig := (substring 0 64 (strip_0x sig)).
  Local Abbreviation s_of sig := (substring 64 64 (strip_0x sig)).
  Local Abbreviation v_of sig := (substring 128 2 (strip_0x sig)).

(** A signature of 130 characters: the header, the loop, and the closing
    line when nothing matched. *)
Lemma verify_valid_length (sig : string) (items : candidates)
  (expected : string) :
  String.length (strip_0x sig) = 130%nat ->
  verify_signature_recovery sig items expected =
  (Banner
     :: SignatureAnalysis (r_of sig) (s_of sig) (v_of sig) expected
     :: output (for_candidates (r_of sig) (s_of sig) expected 1 items)
     ++ match search (r_of sig) (s_of sig) expected items with
        | Some _ => []
        | None => [NoMatch]
        end,
   Returned (search (r_of sig) (s_of sig) expected items)).
Proof.
  intros Hlen. unfold VerifyTangemSignature.verify_signature_recovery.
  rewrite Hlen. cbn [Nat.eqb negb].
  pose proof (for_candidates_ending (r_of sig) (s_of sig) expected 1 items)
    as Hend.
  destruct (for_candidates (r_of sig) (s_of sig) expected 1 items)
    as [out e].
  cbn [ending snd] in Hend. subst e.
  destruct (search (r_of sig) (s_of sig) expected items);
    cbn; rewrite ?app_nil_r; reflexivity.
Qed.

(** Any other length: the error line, and nothing else. *)
Lemma verify_invalid_length (sig : string) (items : candidates)
  (expected : string) :
  String.length (strip_0x sig) <> 130%nat ->
  verify_signature_recovery sig items expected =
  ([Banner; InvalidSignatureLength (String.length (strip_0x sig))],
   Returned None).
Proof.
  intros Hlen. unfold VerifyTangemSignature.verify_signature_recovery.
  destruct (Nat.eqb_spec (String.length (strip_0x sig)) 130);
    [contradiction | reflexivity].
Qed.

(** C2. For a signature of 130 hexadecimal characters, the function
    returns a tuple exactly when some trial matches, and the tuple is that
    of the first matching trial in the order candidates first (input
    order), then v = 27 before v = 28: every trial before it ended without
    a match.  The line of the match is the last line printed, so no later
    trial is run. *)
Theorem first_matching_trial_wins (sig : string) (items : candidates)
  (expected : string) :
  String.length (strip_0x sig) = 130%nat ->
  (forall res : match_result,
      ending (verify_signature_recovery sig items expected) =
        Returned (Some res) <->
      exists (i : nat) (name : string) (h : bytes) (v : Z),
        nth_error (trial_order items) i = Some (name, h, v)
        /\ ending (trial (r_of sig) (s_of sig) expected name h v) =
           Returned (Some res)
        /\ forall (j : nat) (name' : string) (h' : bytes) (v' : Z),
            (j < i)%nat ->
            nth_error (trial_order items) j = Some (name', h', v') ->
            ending (trial (r_of sig) (s_of sig) expected name' h' v') =
            Returned None)
  /\ (forall (name : string) (v : Z) (a : string),
        ending (verify_signature_recovery sig items expected) =
          Returned (Some (name, v, a)) ->
        exists before : list Event,
          output (verify_signature_recovery sig items expected) =
          before ++ [Recovered v a; Match name]).
Proof.
  intros Hlen. rewrite (verify_valid_length sig items expected Hlen).
  cbn [ending output fst snd]. split.
  - intros res. unfold SearchSpec.search. split.
    + intros [= Hfirst]. apply first_match_least in Hfirst.
      destruct Hfirst as (i & [[name h] v] & Hnth & Hres & Hbefore).
      exists i, name, h, v. repeat split; [exact Hnth | |].
      * rewrite trial_ending, Hres. reflexivity.
      * intros j name' h' v' Hj Hn. rewrite trial_ending.
        rewrite (Hbefore j (name', h', v') Hj Hn). reflexivity.
    + intros (i & name & h & v & Hnth & Hres & Hbefore).
      f_equal. apply first_match_least.
      exists i, (name, h, v). repeat split; [exact Hnth | |].
      * rewrite trial_ending in Hres. injection Hres as Hres. exact Hres.
      * intros j [[name' h'] v'] Hj Hn.
        specialize (Hbefore j name' h' v' Hj Hn).
        rewrite trial_ending in Hbefore. injection Hbefore as Hb. exact Hb.
  - intros name v a [= Hsearch]. rewrite Hsearch.
    destruct (for_candidates_stops_at_match
                (r_of sig) (s_of sig) expected 1 items name v a Hsearch)
      as [before Hout].
    rewrite Hout, app_nil_r.
    exists (Banner
              :: SignatureAnalysis (r_of sig) (s_of sig) (v_of sig) expected
              :: before).
    reflexivity.
Qed.

(** C4. A trial whose recovery raises prints its failure line and lets
    the loop go on.  When no trial of a 130-character signature ends with
    a match, every trial of every candidate has been run and printed, the
    closing line follows, and [None] is returned.  No exception leaves
    the function, whatever the inputs; the one error it reports is the
    length of the signature, and it reports it exactly when the signature
    does not have 130 characters. *)
Theorem failed_trials_do_not_abort_the_search (sig : string)
  (items : candidates) (expected : string) :
  (forall (name : string) (h : bytes) (v : Z),
      recover_with_parity (r_of sig) (s_of sig) (v - 27) h = None ->
      trial (r_of sig) (s_of sig) expected name h v =
      ([TrialFailed v], Returned None))
  /\ (String.length (strip_0x sig) = 130%nat ->
      (forall (name : string) (h : bytes) (v : Z),
          In (name, h, v) (trial_order items) ->
          ending (trial (r_of sig) (s_of sig) expected name h v) =
          Returned None) ->
      verify_signature_recovery sig items expected =
      (Banner
         :: SignatureAnalysis (r_of sig) (s_of sig) (v_of sig) expected
         :: exhausted_report
              (fun name h v =>
                 output (trial (r_of sig) (s_of sig) expected name h v))
              1 items
         ++ [NoMatch],
       Returned None))
  /\ (exists res : option match_result,
        ending (verify_signature_recovery sig items expected) =
        Returned res)
  /\ (String.length (strip_0x sig) <> 130%nat <->
      verify_signature_recovery sig items expected =
      ([Banner; InvalidSignatureLength (String.length (strip_0x sig))],
       Returned None)).
Proof.
  split; [|split; [|split]].
  - intros name h v Hfail. rewrite trial_cases, Hfail. reflexivity.
  - intros Hlen Hnone.
    assert (Hsearch : search (r_of sig) (s_of sig) expected items = None).
    { apply first_match_none. intros [[name h] v] Hin.
      specialize (Hnone name h v Hin). rewrite trial_ending in Hnone.
      injection Hnone as Hnone. exact Hnone. }
    rewrite (verify_valid_length sig items expected Hlen), Hsearch.
    rewrite (for_candidates_exhausted _ _ _ 1 items Hsearch). reflexivity.
  - destruct (Nat.eq_dec (String.length (strip_0x sig)) 130) as [Hlen|Hlen].
    + rewrite (verify_valid_length sig items expected Hlen).
      eexists. reflexivity.
    + rewrite (verify_invalid_length sig items expected Hlen).
      eexists. reflexivity.
  - split; [apply verify_invalid_length|].
    intros Hrun Hlen.
    rewrite (verify_valid_length sig items expected Hlen) in Hrun.
    discriminate Hrun.
Qed.

(** C7, as the code has it.  The [v] of a 130-character signature is cut
    out and printed as it stands; it is neither normalized nor checked.
    What is returned is the result of the search over [r], [s], the
    candidates and the expected address.  The trials of the search take
    their [v] from the list [27, 28] and pass [v - 27], the parities 0 and
    1, to the library. *)
Theorem v_is_printed_and_never_parsed (sig : string) (items : candidates)
  (expected : string) :
  String.length (strip_0x sig) = 130%nat ->
  (exists rest : list Event,
      output (verify_signature_recovery sig items expected) =
      Banner
        :: SignatureAnalysis (r_of sig) (s_of sig) (v_of sig) expected
        :: rest)
  /\ ending (verify_signature_recovery sig items expected) =
     Returned (search (r_of sig) (s_of sig) expected items)
  /\ (forall (name : string) (h : bytes),
        trial (r_of sig) (s_of sig) expected name h 27 =
          match recover_with_parity (r_of sig) (s_of sig) 0 h with
          | None => ([TrialFailed 27], Returned None)
          | Some a =>
              if String.eqb (lower a) (lower expected)
              then ([Recovered 27 a; Match name],
                    Returned (Some (name, 27, a)))
              else ([Recovered 27 a], Returned None)
          end
        /\ trial (r_of sig) (s_of sig) expected name h 28 =
          match recover_with_parity (r_of sig) (s_of sig) 1 h with
          | None => ([TrialFailed 28], Returned None)
          | Some a =>
              if String.eqb (lower a) (lower expected)
              then ([Recovered 28 a; Match name],
                    Returned (Some (name, 28, a)))
              else ([Recovered 28 a], Returned None)
          end).
Proof.
  intros Hlen. rewrite (verify_valid_length sig items expected Hlen).
  cbn [ending output fst snd]. split; [eauto|]. split; [reflexivity|].
  intros name h. split; apply trial_cases.
Qed.

(** C9. Two signatures of 130 characters with the same first 128
    characters ([r] and [s]) give the same result over the same
    candidates and expected address, whatever their last two characters
    ([v]) are. *)
Theorem result_is_independent_of_v (sig1 sig2 : string)
  (items : candidates) (expected : string) :
  String.length (strip_0x sig1) = 130%nat ->
  String.length (strip_0x sig2) = 130%nat ->
  substring 0 128 (strip_0x sig1) = substring 0 128 (strip_0x sig2) ->
  ending (verify_signature_recovery sig1 items expected) =
  ending (verify_signature_recovery sig2 items expected).
Proof.
  intros Hlen1 Hlen2 Hsame.
  rewrite (verify_valid_length sig1 items expected Hlen1).
  rewrite (verify_valid_length sig2 items expected Hlen2).
  cbn [ending snd].
  rewrite <- (substring_of_prefix 0 64 128 (strip_0x sig1)) by lia.
  rewrite <- (substring_of_prefix 64 64 128 (strip_0x sig1)) by lia.
  rewrite <- (substring_of_prefix 0 64 128 (strip_0x sig2)) by lia.
  rewrite <- (substring_of_prefix 64 64 128 (strip_0x sig2)) by lia.
  rewrite Hsame. reflexivity.
Qed.

End SearchProperties.


(** ** The search on the data of the script *)

(** The signatures of [main] recover, over the raw hash, the address that
    test_key_derivation.py derives from the key of wallet 0: the second
    signature with [v = 28], the first with [v = 27]. *)
Example signatures_of_main_recover_wallet0 :
  ending (run_verify_signature_recovery ("0x" ++ phase2_signature)
            raw_candidate actual_signing_address) =
    Returned (Some ("Raw safeTxHash", 28,
                    "0x9fe13B041b6811b717B311fCe887146972b20d6a"))%string
  /\ ending (run_verify_signature_recovery ("0x" ++ phase1_signature)
               raw_candidate actual_signing_address) =
    Returned (Some ("Raw safeTxHash", 27,
                    "0x9fe13B041b6811b717B311fCe887146972b20d6a"))%string.
Proof. vm_compute. split; reflexivity. Qed.

(** The signature of [main] with [v] replaced by 29 is not refused: both
    parities are tried over the raw hash, and the second one matches. *)
Lemma signature_with_v29_is_searched :
  run_verify_signature_recovery phase2_signature_v29 raw_candidate
    actual_signing_address =
  ([ Banner;
     SignatureAnalysis
       "2caa5547d2248aeec3fc0c0e9c8a9750fd872689aca34c3e1488b1f2c6ef9008"
       "0a21ea327c5025fb00aba106827e7963297157570b269ddd78dce8d8d19e30a7"
       "1d" "0x9fe13b041b6811b717b311fce887146972b20d6a";
     TestHeader 1 "Raw safeTxHash"
       "16691fce510878c9ddf704da6de1402d2e440ebf67338ca50619573af2780bb9";
     Recovered 27 "0x73772431f478144364700300199d4622E61442DD";
     Recovered 28 "0x9fe13B041b6811b717B311fCe887146972b20d6a";
     Match "Raw safeTxHash" ],
   Returned (Some ("Raw safeTxHash", 28,
                   "0x9fe13B041b6811b717B311fCe887146972b20d6a")))%string.
Proof. vm_compute. reflexivity. Qed.

(** The signature of [main] with [v = 29]. *)
Lemma v_is_printed_and_never_parsed_witness :
  String.length (strip_0x phase2_signature_v29) = 130%nat
  /\ (exists rest : list Event,
        output (run_verify_signature_recovery phase2_signature_v29
                  raw_candidate actual_signing_address) =
        Banner
          :: SignatureAnalysis
               (substring 0 64 (strip_0x phase2_signature_v29))
               (substring 64 64 (strip_0x phase2_signature_v29))
               (substring 128 2 (strip_0x phase2_signature_v29))
               actual_signing_address
          :: rest)
  /\ ending (run_verify_signature_recovery phase2_signature_v29
               raw_candidate actual_signing_address) =
     Returned (run_search
                 (substring 0 64 (strip_0x phase2_signature_v29))
                 (substring 64 64 (strip_0x phase2_signature_v29))
                 actual_signing_address raw_candidate).
Proof.
  assert (Hlen : String.length (strip_0x phase2_signature_v29) = 130%nat)
    by (vm_compute; reflexivity).
  destruct (v_is_printed_and_never_parsed hex_to_Z
              Secp256k1.Signature Secp256k1.PublicKey
              Secp256k1.keys_Signature
              Secp256k1.recover_public_key_from_msg_hash
              Secp256k1.to_checksum_address
              phase2_signature_v29 raw_candidate actual_signing_address Hlen)
    as (Hout & Hend & _).
  split; [exact Hlen|]. split; [exact Hout | exact Hend].
Defined.

(** The signature of [main] over the candidates A and B, which hold the
    same hash: A with [v = 27] does not match, A with [v = 28] does, and
    so would B with [v = 28].  The tuple of A is returned, and its line is
    the last one printed. *)
Lemma first_matching_trial_wins_witness :
  String.length (strip_0x ("0x" ++ phase2_signature)) = 130%nat
  /\ ending (run_verify_signature_recovery ("0x" ++ phase2_signature)
               two_candidates actual_signing_address) =
     Returned (Some ("A", 28,
                     "0x9fe13B041b6811b717B311fCe887146972b20d6a"))%string
  /\ (exists (i : nat) (name : string) (h : bytes) (v : Z),
        nth_error (trial_order two_candidates) i = Some (name, h, v)
        /\ ending (run_trial
                     (substring 0 64 (strip_0x ("0x" ++ phase2_signature)))
                     (substring 64 64 (strip_0x ("0x" ++ phase2_signature)))
                     actual_signing_address name h v) =
           Returned (Some ("A", 28,
                           "0x9fe13B041b6811b717B311fCe887146972b20d6a"))%string
        /\ forall (j : nat) (name' : string) (h' : bytes) (v' : Z),
            (j < i)%nat ->
            nth_error (trial_order two_candidates) j = Some (name', h', v') ->
            ending (run_trial
                      (substring 0 64 (strip_0x ("0x" ++ phase2_signature)))
                      (substring 64 64 (strip_0x ("0x" ++ phase2_signature)))
                      actual_signing_address name' h' v') =
            Returned None)
  /\ (exists before : list Event,
        output (run_verify_signature_recovery ("0x" ++ phase2_signature)
                  two_candidates actual_signing_address) =
        before
          ++ [ Recovered 28 "0x9fe13B041b6811b717B311fCe887146972b20d6a"%string;
               Match "A"%string ]).
Proof.
  assert (Hlen : String.length (strip_0x ("0x" ++ phase2_signature))
                 = 130%nat) by (vm_compute; reflexivity).
  assert (Hrun : ending (run_verify_signature_recovery
                           ("0x" ++ phase2_signature)
                           two_candidates actual_signing_address) =
                 Returned (Some ("A", 28,
                   "0x9fe13B041b6811b717B311fCe887146972b20d6a"))%string)
    by (vm_compute; reflexivity).
  destruct (first_matching_trial_wins hex_to_Z
              Secp256k1.Signature Secp256k1.PublicKey
              Secp256k1.keys_Signature
              Secp256k1.recover_public_key_from_msg_hash
              Secp256k1.to_checksum_address
              ("0x" ++ phase2_signature) two_candidates
              actual_signing_address Hlen) as [Hiff Hstop].
  split; [exact Hlen|]. split; [exact Hrun|]. split.
  - apply Hiff. exact Hrun.
  - apply Hstop. exact Hrun.
Defined.

(** The signature of [main] with its own [v = 28] and with [v = 29]. *)
Lemma result_is_independent_of_v_witness :
  (String.length (strip_0x ("0x" ++ phase2_signature)) = 130%nat
   /\ String.length (strip_0x phase2_signature_v29) = 130%nat
   /\ substring 0 128 (strip_0x ("0x" ++ phase2_signature)) =
      substring 0 128 (strip_0x phase2_signature_v29))
  /\ ending (run_verify_signature_recovery ("0x" ++ phase2_signature)
               raw_candidate actual_signing_address) =
     ending (run_verify_signature_recovery phase2_signature_v29
               raw_candidate actual_signing_address).
Proof.
  split; [repeat split; vm_compute; reflexivity |].
  apply (result_is_independent_of_v hex_to_Z
           Secp256k1.Signature Secp256k1.PublicKey
           Secp256k1.keys_Signature
           Secp256k1.recover_public_key_from_msg_hash
           Secp256k1.to_checksum_address);
    vm_compute; reflexivity.
Defined.

(** With [r = 0] no recovery succeeds: both trials are reported as failed
    and the search ends without a match. *)
Example zero_r_signature_exhausts_the_search :
  run_verify_signature_recovery zero_r_signature raw_candidate
    expected_address =
  ([ Banner;
     SignatureAnalysis
       "0000000000000000000000000000000000000000000000000000000000000000"
       "0a21ea327c5025fb00aba106827e7963297157570b269ddd78dce8d8d19e30a7"
       "1c" "0xe104892a4bcfb40cc2555c69e2a09050becf7ed8";
     TestHeader 1 "Raw safeTxHash"
       "16691fce510878c9ddf704da6de1402d2e440ebf67338ca50619573af2780bb9";
     TrialFailed 27; TrialFailed 28; Blank; NoMatch ],
   Returned None)%string.
Proof. vm_compute. reflexivity. Qed.

(** The signature with [r = 0] over the raw hash. *)
Lemma failed_trials_do_not_abort_the_search_witness :
  (run_recover_with_parity
     (substring 0 64 (strip_0x zero_r_signature))
     (substring 64 64 (strip_0x zero_r_signature))
     (27 - 27) safe_tx_hash_bytes = None
   /\ String.length (strip_0x zero_r_signature) = 130%nat
   /\ (forall (name : string) (h : bytes) (v : Z),
         In (name, h, v) (trial_order raw_candidate) ->
         ending (run_trial
                   (substring 0 64 (strip_0x zero_r_signature))
                   (substring 64 64 (strip_0x zero_r_signature))
                   expected_address name h v) = Returned None))
  /\ run_trial
       (substring 0 64 (strip_0x zero_r_signature))
       (substring 64 64 (strip_0x zero_r_signature))
       expected_address "Raw safeTxHash" safe_tx_hash_bytes 27 =
     ([TrialFailed 27], Returned None)
  /\ run_verify_signature_recovery zero_r_signature raw_candidate
       expected_address =
     (Banner
        :: SignatureAnalysis
             (substring 0 64 (strip_0x zero_r_signature))
             (substring 64 64 (strip_0x zero_r_signature))
             (substring 128 2 (strip_0x zero_r_signature))
             expected_address
        :: exhausted_report
             (fun name h v =>
                output (run_trial
                          (substring 0 64 (strip_0x zero_r_signature))
                          (substring 64 64 (strip_0x zero_r_signature))
                          expected_address name h v))
             1 raw_candidate
        ++ [NoMatch],
      Returned None).
Proof.
  assert (Hfail : run_recover_with_parity
                    (substring 0 64 (strip_0x zero_r_signature))
                    (substring 64 64 (strip_0x zero_r_signature))
                    (27 - 27) safe_tx_hash_bytes = None)
    by (vm_compute; reflexivity).
  assert (Hlen : String.length (strip_0x zero_r_signature) = 130%nat)
    by (vm_compute; reflexivity).
  assert (Hnone : forall (name : string) (h : bytes) (v : Z),
             In (name, h, v) (trial_order raw_candidate) ->
             ending (run_trial
                       (substring 0 64 (strip_0x zero_r_signature))
                       (substring 64 64 (strip_0x zero_r_signature))
                       expected_address name h v) = Returned None).
  { intros name h v Hin. cbn in Hin.
    destruct Hin as [Heq|[Heq|[]]]; injection Heq as <- <- <-;
      vm_compute; reflexivity. }
  destruct (failed_trials_do_not_abort_the_search hex_to_Z
              Secp256k1.Signature Secp256k1.PublicKey
              Secp256k1.keys_Signature
              Secp256k1.recover_public_key_from_msg_hash
              Secp256k1.to_checksum_address
              zero_r_signature raw_candidate expected_address)
    as (Htrial & Hexhausted & _).
  split; [split; [exact Hfail | split; [exact Hlen | exact Hnone]]|].
  split.
  - apply (Htrial "Raw safeTxHash"%string safe_tx_hash_bytes 27 Hfail).
  - apply (Hexhausted Hlen Hnone).
Defined.

(* ================================================================= *)
(** * Further properties of the scripts *)

(** ** The three derivation functions *)

Lemma substring_all (s : string) : substring 0 (String.length s) s = s.
Proof. induction s as [|c s IH]; [reflexivity|]. cbn. rewrite IH. reflexivity. Qed.

Lemma strip_0x_prefixed (s : string) : strip_0x ("0x" ++ s) = s.
Proof.
  unfold strip_0x. cbn [append prefix String.length]. 
  destruct (ascii_dec "0" "0") as [_|H]; [|contradiction].
  destruct (ascii_dec "x" "x") as [_|H]; [|contradiction].
  assert (Hnil : prefix "" s = true) by (destruct s; reflexivity).
  rewrite Hnil. cbn [Nat.sub substring]. rewrite Nat.sub_0_r.
  apply substring_all.
Qed.

Lemma strip_0x_unprefixed (s : string) :
  prefix "0x" s = false -> strip_0x s = s.
Proof. intros H. unfold strip_0x. rewrite H. reflexivity. Qed.

Lemma strip_04_is_never_a_length_error (b : bytes) (n : nat) :
  strip_04 b <> InvalidLength n.
Proof.
  unfold strip_04. destruct b as [|b0 b]; [discriminate|].
  destruct (Z_of_byte b0 =? 4); discriminate.
Qed.

Lemma lower_hex (bs : bytes) : lower (bytes_hex bs) = bytes_hex bs.
Proof.
  induction bs as [|b bs IH]; [reflexivity|].
  cbn [bytes_hex lower]. rewrite IH. destruct b; reflexivity.
Qed.

Lemma lower_address (bs : bytes) :
  lower ("0x" ++ bytes_hex bs) = ("0x" ++ bytes_hex bs)%string.
Proof. cbn [append lower]. rewrite lower_hex. reflexivity. Qed.

Section DerivationExtras.
  Variable keccak : bytes -> bytes.
  Variable PublicKey : Type.
  Variable from_compressed_bytes : bytes -> option PublicKey.
  Variable to_bytes : PublicKey -> bytes.
  Variable exception_text : string -> string.

  Local Abbreviation aw_key_bytes :=
    (AllWallets.key_bytes PublicKey from_compressed_bytes to_bytes).
  Local Abbreviation aw_derive :=
    (AllWallets.derive_address_from_public_key
       keccak PublicKey from_compressed_bytes to_bytes).
  Local Abbreviation kd_derive :=
    (KeyDerivation.derive_address_from_public_key
       keccak PublicKey from_compressed_bytes to_bytes).
  Local Abbreviation dp_derive :=
    (DerivationPaths.derive_address_from_public_key
       keccak PublicKey from_compressed_bytes to_bytes).
  Local Abbreviation dp_returned_string :=
    (DerivationPaths.returned_string
       keccak PublicKey from_compressed_bytes to_bytes exception_text).
  Local Abbreviation dp_test :=
    (DerivationPaths.test_address_transformations
       keccak PublicKey from_compressed_bytes to_bytes exception_text).

(** The functions read their argument through [strip_0x] only. *)
Lemma derivations_depend_on_stripped_input (s1 s2 : string) (c : bool) :
  strip_0x s1 = strip_0x s2 ->
  aw_derive s1 = aw_derive s2
  /\ kd_derive s1 c = kd_derive s2 c
  /\ dp_derive s1 = dp_derive s2.
Proof.
  intros H.
  unfold AllWallets.derive_address_from_public_key, AllWallets.key_bytes,
    KeyDerivation.derive_address_from_public_key, KeyDerivation.key_bytes,
    DerivationPaths.derive_address_from_public_key, DerivationPaths.key_bytes.
  rewrite H. repeat split; reflexivity.
Qed.

(** X1. A key may be given with or without the prefix "0x": the three
    functions return the same for ["0x" ++ s] as for [s], for every [s]
    that does not itself begin with "0x". *)
Theorem key_prefix_0x_is_optional (s : string) (compressed : bool) :
  prefix "0x" s = false ->
  AllWallets.derive_address_from_public_key
    keccak PublicKey from_compressed_bytes to_bytes ("0x" ++ s) =
  AllWallets.derive_address_from_public_key
    keccak PublicKey from_compressed_bytes to_bytes s
  /\ KeyDerivation.derive_address_from_public_key
       keccak PublicKey from_compressed_bytes to_bytes ("0x" ++ s) compressed =
     KeyDerivation.derive_address_from_public_key
       keccak PublicKey from_compressed_bytes to_bytes s compressed
  /\ DerivationPaths.derive_address_from_public_key
       keccak PublicKey from_compressed_bytes to_bytes ("0x" ++ s) =
     DerivationPaths.derive_address_from_public_key
       keccak PublicKey from_compressed_bytes to_bytes s.
Proof.
  intros H. apply derivations_depend_on_stripped_input.
  rewrite strip_0x_prefixed, (strip_0x_unprefixed s H). reflexivity.
Qed.

(** X2. test_all_wallets.py reports an invalid length exactly when the
    key, without its optional "0x", has neither 66, 128 nor 130
    characters; the length reported is that number of characters. *)
Theorem all_wallets_invalid_length_iff (s : string) (n : nat) :
  aw_derive s = InvalidLength n <->
  String.length (strip_0x s) = n /\ n <> 66%nat /\ n <> 128%nat /\ n <> 130%nat.
Proof.
  unfold AllWallets.derive_address_from_public_key, AllWallets.key_bytes.
  destruct (Nat.eqb_spec (String.length (strip_0x s)) 66) as [E66|N66];
    [|destruct (Nat.eqb_spec (String.length (strip_0x s)) 128) as [E128|N128];
      [|destruct (Nat.eqb_spec (String.length (strip_0x s)) 130)
          as [E130|N130]]].
  - split; [|intros (<- & H & _); contradiction].
    destruct (bytes_fromhex (strip_0x s)) as [b|]; [|discriminate].
    destruct (from_compressed_bytes b) as [k|]; [|discriminate].
    pose proof (strip_04_is_never_a_length_error (to_bytes k)) as Hs.
    destruct (strip_04 (to_bytes k)); [discriminate| |discriminate].
    exfalso. eapply Hs. reflexivity.
  - split; [|intros (<- & _ & H & _); contradiction].
    destruct (bytes_fromhex ("04" ++ strip_0x s)) as [b|]; [|discriminate].
    pose proof (strip_04_is_never_a_length_error b) as Hs.
    destruct (strip_04 b); [discriminate| |discriminate].
    exfalso. eapply Hs. reflexivity.
  - split; [|intros (<- & _ & _ & H); contradiction].
    destruct (bytes_fromhex (strip_0x s)) as [b|]; [|discriminate].
    pose proof (strip_04_is_never_a_length_error b) as Hs.
    destruct (strip_04 b); [discriminate| |discriminate].
    exfalso. eapply Hs. reflexivity.
  - split.
    + intros [= <-]. auto.
    + intros (<- & _). reflexivity.
Qed.

(** X3. On the inputs that test_key_derivation.py accepts, which are
    130 characters, and 66 characters with [compressed=True], it returns
    what test_all_wallets.py returns: the same address, or the error
    string of the same exception.  Every other input gets the invalid
    length message of test_key_derivation.py with its number of
    characters; a raw 64-byte key (128 characters) and, with
    [compressed=False], a compressed key (66 characters) are among them.
    Nothing is said here of the message test_all_wallets.py has for a
    length it refuses: its wording is another. *)
Theorem key_derivation_against_all_wallets (s : string) (compressed : bool) :
  KeyDerivation.derive_address_from_public_key
    keccak PublicKey from_compressed_bytes to_bytes s compressed =
  if Nat.eqb (String.length (strip_0x s)) 130
     || (Nat.eqb (String.length (strip_0x s)) 66 && compressed)
  then AllWallets.derive_address_from_public_key
         keccak PublicKey from_compressed_bytes to_bytes s
  else InvalidLength (String.length (strip_0x s)).
Proof.
  unfold AllWallets.derive_address_from_public_key, AllWallets.key_bytes,
    KeyDerivation.derive_address_from_public_key, KeyDerivation.key_bytes.
  destruct (Nat.eqb_spec (String.length (strip_0x s)) 66) as [E66|N66].
  - rewrite E66. cbn [Nat.eqb orb andb].
    destruct compressed; reflexivity.
  - rewrite andb_false_r. cbn [andb]. rewrite orb_false_r.
    destruct (Nat.eqb_spec (String.length (strip_0x s)) 130) as [E130|N130].
    + rewrite E130. reflexivity.
    + reflexivity.
Qed.

(** X4. test_derivation_paths.py accepts the compressed form only: on 66
    characters it returns what test_all_wallets.py returns, and any
    other length, 128 and 130 included, is an invalid length. *)
Theorem derivation_paths_against_all_wallets (s : string) :
  dp_derive s =
  if Nat.eqb (String.length (strip_0x s)) 66 then aw_derive s
  else InvalidLength (String.length (strip_0x s)).
Proof.
  unfold AllWallets.derive_address_from_public_key, AllWallets.key_bytes,
    DerivationPaths.derive_address_from_public_key, DerivationPaths.key_bytes.
  destruct (Nat.eqb (String.length (strip_0x s)) 66); reflexivity.
Qed.


(** Every address string is "0x" and the hex of the tail of a digest. *)
Lemma derived_address_shape (s a : string) (compressed : bool) :
  aw_derive s = Ok a \/ kd_derive s compressed = Ok a \/ dp_derive s = Ok a ->
  exists hashed : bytes,
    a = ("0x" ++ bytes_hex (last_bytes 20 (keccak hashed)))%string.
Proof.
  unfold AllWallets.derive_address_from_public_key,
    KeyDerivation.derive_address_from_public_key,
    DerivationPaths.derive_address_from_public_key.
  intros [H|[H|H]].
  - destruct (aw_key_bytes s) as [hashed| |]; [|discriminate|discriminate].
    injection H as <-. exists hashed. reflexivity.
  - destruct (KeyDerivation.key_bytes PublicKey from_compressed_bytes
                to_bytes s compressed) as [hashed| |];
      [|discriminate|discriminate].
    injection H as <-. exists hashed. reflexivity.
  - destruct (DerivationPaths.key_bytes PublicKey from_compressed_bytes
                to_bytes s) as [hashed| |]; [|discriminate|discriminate].
    injection H as <-. exists hashed. reflexivity.
Qed.

(** X5. With a 32-byte digest, every address that one of the three
    functions returns has 42 characters, begins with "0x", is in lower
    case, and reads back, through the scripts' own prefix stripping and
    [bytes.fromhex], as the 20 bytes it was printed from. *)
Theorem derived_address_format (s a : string) (compressed : bool) :
  (forall m : bytes, List.length (keccak m) = 32%nat) ->
  aw_derive s = Ok a \/ kd_derive s compressed = Ok a \/ dp_derive s = Ok a ->
  String.length a = 42%nat
  /\ prefix "0x" a = true
  /\ lower a = a
  /\ exists tail : bytes,
      List.length tail = 20%nat
      /\ a = ("0x" ++ bytes_hex tail)%string
      /\ bytes_fromhex (strip_0x a) = Some tail.
Proof.
  intros Hdigest Hok.
  destruct (derived_address_shape s a compressed Hok) as [hashed ->].
  assert (Htail : List.length (last_bytes 20 (keccak hashed)) = 20%nat).
  { unfold last_bytes. rewrite length_skipn, Hdigest. reflexivity. }
  split; [|split; [|split]].
  - cbn [append String.length]. rewrite bytes_hex_length, Htail. reflexivity.
  - cbn [append prefix].
    destruct (ascii_dec "0" "0") as [_|H]; [|contradiction].
    destruct (ascii_dec "x" "x") as [_|H]; [|contradiction].
    destruct (bytes_hex (last_bytes 20 (keccak hashed))); reflexivity.
  - apply lower_address.
  - exists (last_bytes 20 (keccak hashed)).
    split; [exact Htail|]. split; [reflexivity|].
    rewrite strip_0x_prefixed. apply fromhex_hex.
Qed.

Lemma drop_two_hex (p : byte) (xs : bytes) :
  drop_two (bytes_hex (p :: xs)) = bytes_hex xs.
Proof.
  unfold drop_two. cbn [bytes_hex String.length Nat.sub substring].
  rewrite Nat.sub_0_r. apply substring_all.
Qed.

Lemma hex_starts_with_02_or_03 (p : byte) (xs : bytes) :
  p = x02 \/ p = x03 ->
  prefix "03" (bytes_hex (p :: xs)) || prefix "02" (bytes_hex (p :: xs)) = true.
Proof.
  intros [-> | ->]; cbn [bytes_hex]; destruct (bytes_hex xs); reflexivity.
Qed.

(** X6. In [test_address_transformations], for a compressed key (33
    bytes, first byte 0x02 or 0x03) the second step never derives an
    address: it calls the derivation on the 64 characters that follow the
    first byte, and the line it prints always carries "Invalid length:
    64".  The truth value returned is that of the first step alone: when
    the key derives an address, it tells whether that address is the
    target address in lower case. *)
Theorem transformations_on_a_compressed_key (p : byte) (xs : bytes)
  (target : string) :
  List.length xs = 32%nat ->
  p = x02 \/ p = x03 ->
  nth_error (fst (dp_test (bytes_hex (p :: xs)) target)) 5 =
    Some (UncompressedKey "Invalid length: 64")
  /\ forall a : string,
      dp_derive (bytes_hex (p :: xs)) = Ok a ->
      snd (dp_test (bytes_hex (p :: xs)) target) =
      String.eqb a (lower target).
Proof.
  intros Hlen Hp. unfold DerivationPaths.test_address_transformations.
  rewrite (hex_starts_with_02_or_03 p xs Hp), drop_two_hex.
  cbn [fst snd]. split.
  - cbn [app nth_error]. do 2 f_equal.
    unfold DerivationPaths.returned_string,
      DerivationPaths.derive_address_from_public_key,
      DerivationPaths.key_bytes.
    rewrite strip_0x_hex, bytes_hex_length, Hlen. reflexivity.
  - intros a Ha. unfold DerivationPaths.returned_string. rewrite Ha.
    destruct (derived_address_shape _ a true (or_intror (or_intror Ha)))
      as [hashed ->].
    rewrite lower_address. reflexivity.
Qed.

(** X13. For a target address that begins with "0x" or "0X",
    [test_address_transformations] returns [True] exactly when the base
    key derives the target address in lower case; the text of a failed
    derivation ("Invalid length: ...", "Error: ...") is never taken for a
    match. *)
Theorem transformations_verdict_is_sound (base target : string) :
  prefix "0x" (lower target) = true ->
  snd (dp_test base target) = true <-> dp_derive base = Ok (lower target).
Proof.
  intros H0x. unfold DerivationPaths.test_address_transformations.
  cbn [snd]. unfold DerivationPaths.returned_string.
  destruct (lower target) as [|c1 [|c2 t]] eqn:Htarget; cbn [prefix] in H0x;
    try discriminate.
  { destruct (ascii_dec "0" c1); discriminate. }
  destruct (ascii_dec "0" c1) as [<-|]; [|discriminate].
  destruct (dp_derive base) as [a| n |] eqn:Hd.
  - destruct (derived_address_shape base a true (or_intror (or_intror Hd)))
      as [hashed ->].
    rewrite lower_address. split.
    + intros Heq. apply String.eqb_eq in Heq. rewrite Heq. reflexivity.
    + intros Heq.
      apply (f_equal (fun r => match r with
                               | Ok x => x
                               | _ => EmptyString
                               end)) in Heq.
      cbv beta iota in Heq. rewrite Heq. apply String.eqb_refl.
  - split; [|discriminate]. cbn. discriminate.
  - split; [|discriminate]. cbn. discriminate.
Qed.

(** X14. An input that [bytes.fromhex] cannot read never gives an
    address: whatever its length, each of the three functions returns
    the error string or the length message. *)
Theorem no_address_from_malformed_hex (s a : string) (compressed : bool) :
  bytes_fromhex (strip_0x s) = None ->
  aw_derive s <> Ok a
  /\ kd_derive s compressed <> Ok a
  /\ dp_derive s <> Ok a.
Proof.
  intros Hbad.
  assert (H04 : bytes_fromhex ("04" ++ strip_0x s) = None).
  { change ("04" ++ strip_0x s)%string
      with (String "0" (String "4" (strip_0x s))).
    cbn. rewrite Hbad. reflexivity. }
  unfold AllWallets.derive_address_from_public_key, AllWallets.key_bytes,
    KeyDerivation.derive_address_from_public_key, KeyDerivation.key_bytes,
    DerivationPaths.derive_address_from_public_key, DerivationPaths.key_bytes.
  rewrite H04, Hbad. repeat split.
  - destruct (Nat.eqb _ 66); [discriminate|].
    destruct (Nat.eqb _ 128); [discriminate|].
    destruct (Nat.eqb _ 130); discriminate.
  - destruct (compressed && Nat.eqb _ 66); [discriminate|].
    destruct (Nat.eqb _ 130); discriminate.
  - destruct (Nat.eqb _ 66); discriminate.
Qed.

End DerivationExtras.

(** The key of wallet 0, with and without "0x". *)
Lemma key_prefix_0x_is_optional_witness :
  prefix "0x" wallet0 = false
  /\ AllWallets.derive_address_from_public_key Keccak.keccak256
       Secp256k1.PublicKey Secp256k1.from_compressed_bytes
       Secp256k1.to_bytes ("0x" ++ wallet0) =
     AllWallets.derive_address_from_public_key Keccak.keccak256
       Secp256k1.PublicKey Secp256k1.from_compressed_bytes
       Secp256k1.to_bytes wallet0.
Proof.
  assert (H : prefix "0x" wallet0 = false) by reflexivity.
  split; [exact H|].
  exact (proj1 (key_prefix_0x_is_optional Keccak.keccak256
                  Secp256k1.PublicKey Secp256k1.from_compressed_bytes
                  Secp256k1.to_bytes wallet0 true H)).
Defined.

(** The address of wallet 0. *)
Lemma derived_address_format_witness :
  ((forall m : bytes, List.length (Keccak.keccak256 m) = 32%nat)
   /\ derivation_paths_derive wallet0 =
      Ok "0x9fe13b041b6811b717b311fce887146972b20d6a"%string)
  /\ String.length "0x9fe13b041b6811b717b311fce887146972b20d6a" = 42%nat
  /\ lower "0x9fe13b041b6811b717b311fce887146972b20d6a" =
     "0x9fe13b041b6811b717b311fce887146972b20d6a"%string.
Proof.
  assert (Hok : derivation_paths_derive wallet0 =
                Ok "0x9fe13b041b6811b717b311fce887146972b20d6a"%string)
    by (vm_compute; reflexivity).
  destruct (derived_address_format Keccak.keccak256
              Secp256k1.PublicKey Secp256k1.from_compressed_bytes
              Secp256k1.to_bytes wallet0
              "0x9fe13b041b6811b717b311fce887146972b20d6a" true
              keccak256_length (or_intror (or_intror Hok)))
    as (Hlen & _ & Hlower & _).
  split; [split; [exact keccak256_length | exact Hok]|].
  split; [exact Hlen | exact Hlower].
Defined.

(** The key of wallet 0 against the address in upper case: the second
    step reports an invalid length, and the function returns [True]. *)
Lemma transformations_on_a_compressed_key_witness :
  (List.length (skipn 1 (bytes_of_hex wallet0)) = 32%nat
   /\ (x03 = x02 \/ x03 = x03)
   /\ derivation_paths_derive
        (bytes_hex (x03 :: skipn 1 (bytes_of_hex wallet0))) =
      Ok "0x9fe13b041b6811b717b311fce887146972b20d6a"%string)
  /\ nth_error
       (fst (derivation_paths_test
               (bytes_hex (x03 :: skipn 1 (bytes_of_hex wallet0)))
               actual_signing_address_upper)) 5 =
     Some (UncompressedKey "Invalid length: 64")
  /\ snd (derivation_paths_test
            (bytes_hex (x03 :: skipn 1 (bytes_of_hex wallet0)))
            actual_signing_address_upper) =
     String.eqb "0x9fe13b041b6811b717b311fce887146972b20d6a"
       (lower actual_signing_address_upper).
Proof.
  assert (Hlen : List.length (skipn 1 (bytes_of_hex wallet0)) = 32%nat)
    by (vm_compute; reflexivity).
  assert (Hok : derivation_paths_derive
                  (bytes_hex (x03 :: skipn 1 (bytes_of_hex wallet0))) =
                Ok "0x9fe13b041b6811b717b311fce887146972b20d6a"%string)
    by (vm_compute; reflexivity).
  destruct (transformations_on_a_compressed_key Keccak.keccak256
              Secp256k1.PublicKey Secp256k1.from_compressed_bytes
              Secp256k1.to_bytes (fun _ => EmptyString)
              x03 (skipn 1 (bytes_of_hex wallet0))
              actual_signing_address_upper Hlen (or_intror eq_refl))
    as [Hstep2 Hret].
  split; [split; [exact Hlen | split; [right; reflexivity | exact Hok]]|].
  split; [exact Hstep2 | exact (Hret _ Hok)].
Defined.

(** The three encodings of the key of wallet 0, whose abscissa begins
    with 0x2c. *)
Lemma encodings_agree_unless_abscissa_starts_with_04_witness :
  (List.length (bytes_of_hex wallet0) = 33%nat
   /\ Secp256k1.from_compressed_bytes (bytes_of_hex wallet0) =
      Some (x2c :: skipn 1 (bytes_of_hex wallet0_raw))
   /\ Secp256k1.to_bytes (x2c :: skipn 1 (bytes_of_hex wallet0_raw)) =
      x2c :: skipn 1 (bytes_of_hex wallet0_raw)
   /\ List.length (skipn 1 (bytes_of_hex wallet0_raw)) = 63%nat
   /\ Z_of_byte x2c <> 4)
  /\ AllWallets.key_bytes Secp256k1.PublicKey
       Secp256k1.from_compressed_bytes Secp256k1.to_bytes
       (bytes_hex (bytes_of_hex wallet0)) =
     Ok (x2c :: skipn 1 (bytes_of_hex wallet0_raw))
  /\ AllWallets.key_bytes Secp256k1.PublicKey
       Secp256k1.from_compressed_bytes Secp256k1.to_bytes
       (bytes_hex (x2c :: skipn 1 (bytes_of_hex wallet0_raw))) =
     Ok (x2c :: skipn 1 (bytes_of_hex wallet0_raw))
  /\ AllWallets.key_bytes Secp256k1.PublicKey
       Secp256k1.from_compressed_bytes Secp256k1.to_bytes
       (bytes_hex (x04 :: x2c :: skipn 1 (bytes_of_hex wallet0_raw))) =
     Ok (x2c :: skipn 1 (bytes_of_hex wallet0_raw)).
Proof.
  assert (H33 : List.length (bytes_of_hex wallet0) = 33%nat)
    by (vm_compute; reflexivity).
  assert (Hk : Secp256k1.from_compressed_bytes (bytes_of_hex wallet0) =
               Some (x2c :: skipn 1 (bytes_of_hex wallet0_raw)))
    by (vm_compute; reflexivity).
  assert (Hb : Secp256k1.to_bytes (x2c :: skipn 1 (bytes_of_hex wallet0_raw))
               = x2c :: skipn 1 (bytes_of_hex wallet0_raw)) by reflexivity.
  assert (H63 : List.length (skipn 1 (bytes_of_hex wallet0_raw)) = 63%nat)
    by (vm_compute; reflexivity).
  assert (Hx : Z_of_byte x2c <> 4) by (vm_compute; discriminate).
  split; [repeat split; assumption|].
  exact (encodings_agree_unless_abscissa_starts_with_04
           Secp256k1.PublicKey Secp256k1.from_compressed_bytes
           Secp256k1.to_bytes (bytes_of_hex wallet0)
           (x2c :: skipn 1 (bytes_of_hex wallet0_raw)) x2c
           (skipn 1 (bytes_of_hex wallet0_raw)) H33 Hk Hb H63 Hx).
Defined.

(** The key of wallet 0 against the address in upper case. *)
Lemma transformations_verdict_is_sound_witness :
  prefix "0x" (lower actual_signing_address_upper) = true
  /\ (snd (derivation_paths_test wallet0 actual_signing_address_upper) = true
      <-> derivation_paths_derive wallet0 =
          Ok (lower actual_signing_address_upper)).
Proof.
  assert (H : prefix "0x" (lower actual_signing_address_upper) = true)
    by (vm_compute; reflexivity).
  split; [exact H|].
  exact (transformations_verdict_is_sound Keccak.keccak256
           Secp256k1.PublicKey Secp256k1.from_compressed_bytes
           Secp256k1.to_bytes (fun _ => EmptyString)
           wallet0 actual_signing_address_upper H).
Defined.

(** A string of 66 characters that are no hexadecimal digits. *)
Lemma no_address_from_malformed_hex_witness :
  bytes_fromhex
    (strip_0x "zz2c6f575345bafa41227d802afaa251f9fd1d5613a0f729b46a200ac90a92f6df")
    = None
  /\ AllWallets.derive_address_from_public_key Keccak.keccak256
       Secp256k1.PublicKey Secp256k1.from_compressed_bytes
       Secp256k1.to_bytes
       "zz2c6f575345bafa41227d802afaa251f9fd1d5613a0f729b46a200ac90a92f6df"
     <> Ok "0x9fe13b041b6811b717b311fce887146972b20d6a"%string.
Proof.
  assert (H : bytes_fromhex
                (strip_0x "zz2c6f575345bafa41227d802afaa251f9fd1d5613a0f729b46a200ac90a92f6df")
              = None) by (vm_compute; reflexivity).
  split; [exact H|].
  exact (proj1 (no_address_from_malformed_hex Keccak.keccak256
                  Secp256k1.PublicKey Secp256k1.from_compressed_bytes
                  Secp256k1.to_bytes
                  "zz2c6f575345bafa41227d802afaa251f9fd1d5613a0f729b46a200ac90a92f6df"
                  "0x9fe13b041b6811b717b311fce887146972b20d6a" true H)).
Defined.

(** ** The recovery search, further *)

Lemma first_match_ext {T R : Type} (f g : T -> option R) (ts : list T) :
  (forall t, In t ts -> f t = g t) -> first_match f ts = first_match g ts.
Proof.
  induction ts as [|t ts IH]; intros H; [reflexivity|].
  cbn [first_match]. rewrite (H t (or_introl eq_refl)).
  rewrite IH; [reflexivity|]. intros t' Hin. apply H. right. exact Hin.
Qed.

Lemma first_match_app {T R : Type} (f : T -> option R) (ts1 ts2 : list T) :
  first_match f (ts1 ++ ts2) =
  match first_match f ts1 with
  | Some res => Some res
  | None => first_match f ts2
  end.
Proof.
  induction ts1 as [|t ts1 IH]; [reflexivity|].
  cbn [app first_match]. destruct (f t); [reflexivity | exact IH].
Qed.

Lemma exhausted_report_ext (f g : string -> bytes -> Z -> list Event)
  (i : nat) (items : candidates) :
  (forall name h v, f name h v = g name h v) ->
  exhausted_report f i items = exhausted_report g i items.
Proof.
  intros H. revert i. induction items as [|[name h] items IH]; intros i;
    [reflexivity|].
  cbn [exhausted_report]. rewrite !H, IH. reflexivity.
Qed.

Lemma lower_keeps_0x (a : string) :
  prefix "0x" a = true -> prefix "0x" (lower a) = true.
Proof.
  destruct a as [|c1 [|c2 a]]; cbn [prefix]; try discriminate.
  - destruct (ascii_dec "0" c1); discriminate.
  - destruct (ascii_dec "0" c1) as [<-|]; [|discriminate].
    destruct (ascii_dec "x" c2) as [<-|]; [|discriminate].
    intros _. cbn [lower]. destruct (lower a); reflexivity.
Qed.

Section SearchExtras.
  Variable int16 : string -> option Z.
  Variable Signature : Type.
  Variable PublicKey : Type.
  Variable keys_Signature : Z * Z * Z -> option Signature.
  Variable recover_public_key_from_msg_hash :
    Signature -> bytes -> option PublicKey.
  Variable to_checksum_address : PublicKey -> string.

  Local Abbreviation trial :=
    (VerifyTangemSignature.trial int16 Signature PublicKey keys_Signature
       recover_public_key_from_msg_hash to_checksum_address).
  Local Abbreviation verify_signature_recovery :=
    (VerifyTangemSignature.verify_signature_recovery int16 Signature
       PublicKey keys_Signature recover_public_key_from_msg_hash
       to_checksum_address).
  Local Abbreviation recover_with_parity :=
    (SearchSpec.recover_with_parity int16 Signature PublicKey keys_Signature
       recover_public_key_from_msg_hash to_checksum_address).
  Local Abbreviation matching_trial :=
    (SearchSpec.matching_trial int16 Signature PublicKey keys_Signature
       recover_public_key_from_msg_hash to_checksum_address).
  Local Abbreviation search :=
    (SearchSpec.search int16 Signature PublicKey keys_Signature
       recover_public_key_from_msg_hash to_checksum_address).
  Local Abbreviation r_of sig := (substring 0 64 (strip_0x sig)).
  Local Abbreviation s_of sig := (substring 64 64 (strip_0x sig)).
  Local Abbreviation v_of sig := (substring 128 2 (strip_0x sig)).

(** How the function ends, for any signature. *)
Lemma verify_ending (sig : string) (items : candidates) (expected : string) :
  ending (verify_signature_recovery sig items expected) =
  Returned
    (if Nat.eqb (String.length (strip_0x sig)) 130
     then search (r_of sig) (s_of sig) expected items
     else None).
Proof.
  destruct (Nat.eqb_spec (String.length (strip_0x sig)) 130) as [Hlen|Hlen].
  - rewrite (verify_valid_length int16 Signature PublicKey keys_Signature
               recover_public_key_from_msg_hash to_checksum_address
               sig items expected Hlen). reflexivity.
  - rewrite (verify_invalid_length int16 Signature PublicKey keys_Signature
               recover_public_key_from_msg_hash to_checksum_address
               sig items expected Hlen). reflexivity.
Qed.

(** What a matching trial says about its tuple. *)
Lemma matching_trial_sound (r_hex s_hex expected name : string) (h : bytes)
  (v : Z) (res : match_result) :
  matching_trial r_hex s_hex expected (name, h, v) = Some res ->
  exists a : string,
    res = (name, v, a)
    /\ recover_with_parity r_hex s_hex (v - 27) h = Some a
    /\ lower a = lower expected.
Proof.
  unfold SearchSpec.matching_trial.
  destruct (recover_with_parity r_hex s_hex (v - 27) h) as [a|];
    [|discriminate].
  destruct (String.eqb_spec (lower a) (lower expected)) as [Heq|];
    [|discriminate].
  intros [= <-]. exists a. repeat split. exact Heq.
Qed.

Lemma recovered_address_is_a_checksum_address (r_hex s_hex : string)
  (parity : Z) (h : bytes) (a : string) :
  recover_with_parity r_hex s_hex parity h = Some a ->
  exists pk : PublicKey, a = to_checksum_address pk.
Proof.
  unfold SearchSpec.recover_with_parity.
  destruct (int16 r_hex) as [r|]; [|discriminate].
  destruct (int16 s_hex) as [s|]; [|discriminate].
  destruct (keys_Signature (parity, r, s)) as [sig|]; [|discriminate].
  destruct (recover_public_key_from_msg_hash sig h) as [pk|]; [|discriminate].
  intros [= <-]. exists pk. reflexivity.
Qed.

(** X7. A signature may be given with or without the prefix "0x": the
    function prints and returns the same for ["0x" ++ s] as for [s], for
    every [s] that does not itself begin with "0x". *)
Theorem signature_prefix_0x_is_optional (s : string) (items : candidates)
  (expected : string) :
  prefix "0x" s = false ->
  verify_signature_recovery ("0x" ++ s) items expected =
  verify_signature_recovery s items expected.
Proof.
  intros H. unfold VerifyTangemSignature.verify_signature_recovery.
  rewrite strip_0x_prefixed, (strip_0x_unprefixed s H). reflexivity.
Qed.

(** X8. The expected address is compared without regard to case: two
    expected addresses that are equal in lower case give the same
    result.  The tuple returned carries the address as the library prints
    it, not as the caller wrote it. *)
Theorem expected_address_case_is_ignored (sig : string) (items : candidates)
  (expected1 expected2 : string) :
  lower expected1 = lower expected2 ->
  ending (verify_signature_recovery sig items expected1) =
  ending (verify_signature_recovery sig items expected2).
Proof.
  intros Hcase. rewrite !verify_ending.
  destruct (Nat.eqb (String.length (strip_0x sig)) 130); [|reflexivity].
  f_equal. unfold SearchSpec.search. apply first_match_ext.
  intros [[name h] v] _. unfold SearchSpec.matching_trial.
  rewrite Hcase. reflexivity.
Qed.

(** X9. A tuple [(name, v, address)] that is returned is sound: the
    signature has 130 characters, [name] is the name of one of the
    candidates, [v] is 27 or 28, [address] is what the library recovered
    from that candidate's hash with parity [v - 27], and it equals the
    expected address in lower case. *)
Theorem returned_match_is_sound (sig : string) (items : candidates)
  (expected name : string) (v : Z) (a : string) :
  ending (verify_signature_recovery sig items expected) =
    Returned (Some (name, v, a)) ->
  String.length (strip_0x sig) = 130%nat
  /\ (v = 27 \/ v = 28)
  /\ lower a = lower expected
  /\ exists h : bytes,
      In (name, h) items
      /\ recover_with_parity (r_of sig) (s_of sig) (v - 27) h = Some a.
Proof.
  rewrite verify_ending.
  destruct (Nat.eqb_spec (String.length (strip_0x sig)) 130) as [Hlen|Hlen];
    [|discriminate].
  intros [= Hsearch]. unfold SearchSpec.search in Hsearch.
  apply first_match_least in Hsearch.
  destruct Hsearch as (i & [[name' h] v'] & Hnth & Hres & _).
  apply nth_error_In, in_trial_order in Hnth. destruct Hnth as [Hin Hv].
  destruct (matching_trial_sound _ _ _ _ _ _ _ Hres) as (a' & Heq & Hrec & Hlow).
  injection Heq as <- <- <-.
  repeat split; [exact Hlen | exact Hv | exact Hlow |].
  exists h. split; [exact Hin | exact Hrec].
Qed.

(** X10. While the prefix "0x" of the signature is optional, that of the
    expected address is not: the library prints addresses with "0x", and
    an expected address that does not begin with "0x" or "0X" is matched
    by no trial, so [None] is returned. *)
Theorem expected_address_needs_its_prefix (sig : string) (items : candidates)
  (expected : string) :
  (forall pk : PublicKey, prefix "0x" (to_checksum_address pk) = true) ->
  prefix "0x" (lower expected) = false ->
  ending (verify_signature_recovery sig items expected) = Returned None.
Proof.
  intros Hlib Hbare. rewrite verify_ending.
  destruct (Nat.eqb (String.length (strip_0x sig)) 130); [|reflexivity].
  f_equal. unfold SearchSpec.search. apply first_match_none.
  intros [[name h] v] _.
  destruct (matching_trial (r_of sig) (s_of sig) expected (name, h, v))
    as [res|] eqn:Hres; [|reflexivity].
  destruct (matching_trial_sound _ _ _ _ _ _ _ Hres) as (a & _ & Hrec & Hlow).
  destruct (recovered_address_is_a_checksum_address _ _ _ _ _ Hrec)
    as [pk ->].
  pose proof (lower_keeps_0x _ (Hlib pk)) as H0x.
  rewrite Hlow, Hbare in H0x. discriminate.
Qed.

(** X11. Searching a list of candidates followed by another: a match
    among the first is returned whatever follows, and when the first
    have no match the result is that of the others. *)
Theorem search_over_appended_candidates (sig : string)
  (items1 items2 : candidates) (expected : string) :
  ending (verify_signature_recovery sig (items1 ++ items2) expected) =
  match ending (verify_signature_recovery sig items1 expected) with
  | Returned (Some res) => Returned (Some res)
  | _ => ending (verify_signature_recovery sig items2 expected)
  end.
Proof.
  rewrite !verify_ending.
  destruct (Nat.eqb (String.length (strip_0x sig)) 130); [|reflexivity].
  unfold SearchSpec.search, trial_order.
  rewrite flat_map_app, first_match_app.
  destruct (first_match _ (flat_map _ items1)); reflexivity.
Qed.

(** X12. A signature of 130 characters whose [r] or [s] is not a
    number is not refused at the start: [int] raises inside every trial,
    so both trials of every candidate print their failure line, and
    [None] is returned after the closing line. *)
Theorem unreadable_r_or_s_fails_every_trial (sig : string)
  (items : candidates) (expected : string) :
  String.length (strip_0x sig) = 130%nat ->
  int16 (r_of sig) = None \/ int16 (s_of sig) = None ->
  verify_signature_recovery sig items expected =
  (Banner
     :: SignatureAnalysis (r_of sig) (s_of sig) (v_of sig) expected
     :: exhausted_report (fun _ _ v => [TrialFailed v]) 1 items
     ++ [NoMatch],
   Returned None).
Proof.
  intros Hlen Hbad.
  assert (Hrec : forall parity h,
             recover_with_parity (r_of sig) (s_of sig) parity h = None).
  { intros parity h. unfold SearchSpec.recover_with_parity.
    destruct Hbad as [Hr|Hs]; [rewrite Hr; reflexivity|].
    destruct (int16 (r_of sig)); [rewrite Hs|]; reflexivity. }
  assert (Hsearch : search (r_of sig) (s_of sig) expected items = None).
  { unfold SearchSpec.search. apply first_match_none.
    intros [[name h] v] _. unfold SearchSpec.matching_trial.
    rewrite Hrec. reflexivity. }
  rewrite (verify_valid_length int16 Signature PublicKey keys_Signature
             recover_public_key_from_msg_hash to_checksum_address
             sig items expected Hlen), Hsearch.
  rewrite (for_candidates_exhausted int16 Signature PublicKey keys_Signature
             recover_public_key_from_msg_hash to_checksum_address
             _ _ _ 1 items Hsearch).
  do 3 f_equal. f_equal. apply exhausted_report_ext. intros name h v.
  rewrite (trial_cases int16 Signature PublicKey keys_Signature
             recover_public_key_from_msg_hash to_checksum_address), Hrec.
  reflexivity.
Qed.

End SearchExtras.

(** The signature of [main], with and without "0x". *)
Lemma signature_prefix_0x_is_optional_witness :
  prefix "0x" phase2_signature = false
  /\ run_verify_signature_recovery ("0x" ++ phase2_signature)
       raw_candidate actual_signing_address =
     run_verify_signature_recovery phase2_signature
       raw_candidate actual_signing_address.
Proof.
  assert (H : prefix "0x" phase2_signature = false) by reflexivity.
  split; [exact H|].
  exact (signature_prefix_0x_is_optional hex_to_Z
           Secp256k1.Signature Secp256k1.PublicKey Secp256k1.keys_Signature
           Secp256k1.recover_public_key_from_msg_hash
           Secp256k1.to_checksum_address
           phase2_signature raw_candidate actual_signing_address H).
Defined.

(** The address of the script in lower and in upper case. *)
Lemma expected_address_case_is_ignored_witness :
  lower actual_signing_address = lower actual_signing_address_upper
  /\ ending (run_verify_signature_recovery ("0x" ++ phase2_signature)
               raw_candidate actual_signing_address) =
     ending (run_verify_signature_recovery ("0x" ++ phase2_signature)
               raw_candidate actual_signing_address_upper).
Proof.
  assert (H : lower actual_signing_address =
              lower actual_signing_address_upper)
    by (vm_compute; reflexivity).
  split; [exact H|].
  exact (expected_address_case_is_ignored hex_to_Z
           Secp256k1.Signature Secp256k1.PublicKey Secp256k1.keys_Signature
           Secp256k1.recover_public_key_from_msg_hash
           Secp256k1.to_checksum_address
           ("0x" ++ phase2_signature) raw_candidate
           actual_signing_address actual_signing_address_upper H).
Defined.

(** The tuple that the signature of [main] returns over the raw hash. *)
Lemma returned_match_is_sound_witness :
  ending (run_verify_signature_recovery ("0x" ++ phase2_signature)
            raw_candidate actual_signing_address) =
    Returned (Some ("Raw safeTxHash"%string, 28,
                    "0x9fe13B041b6811b717B311fCe887146972b20d6a"%string))
  /\ String.length (strip_0x ("0x" ++ phase2_signature)) = 130%nat
  /\ (28 = 27 \/ 28 = 28)
  /\ lower "0x9fe13B041b6811b717B311fCe887146972b20d6a" =
     lower actual_signing_address
  /\ exists h : bytes,
      In ("Raw safeTxHash"%string, h) raw_candidate
      /\ run_recover_with_parity
           (substring 0 64 (strip_0x ("0x" ++ phase2_signature)))
           (substring 64 64 (strip_0x ("0x" ++ phase2_signature)))
           (28 - 27) h =
         Some "0x9fe13B041b6811b717B311fCe887146972b20d6a"%string.
Proof.
  pose proof (proj1 signatures_of_main_recover_wallet0) as Hrun.
  split; [exact Hrun|].
  exact (returned_match_is_sound hex_to_Z
           Secp256k1.Signature Secp256k1.PublicKey Secp256k1.keys_Signature
           Secp256k1.recover_public_key_from_msg_hash
           Secp256k1.to_checksum_address
           ("0x" ++ phase2_signature) raw_candidate actual_signing_address
           "Raw safeTxHash" 28 "0x9fe13B041b6811b717B311fCe887146972b20d6a"
           Hrun).
Defined.

Lemma checksum_address_starts_with_0x (pk : Secp256k1.PublicKey) :
  prefix "0x" (Secp256k1.to_checksum_address pk) = true.
Proof.
  unfold Secp256k1.to_checksum_address, Secp256k1.checksum_address.
  cbn [append prefix].
  destruct (ascii_dec "0" "0") as [_|H]; [|contradiction].
  destruct (ascii_dec "x" "x") as [_|H]; [|contradiction].
  destruct (Secp256k1.checksum_case _ _); reflexivity.
Qed.

(** The address of the script without its prefix: the signature that
    matches it with the prefix finds nothing. *)
Lemma expected_address_needs_its_prefix_witness :
  ((forall pk : Secp256k1.PublicKey,
       prefix "0x" (Secp256k1.to_checksum_address pk) = true)
   /\ prefix "0x" (lower actual_signing_address_bare) = false)
  /\ ending (run_verify_signature_recovery ("0x" ++ phase2_signature)
               raw_candidate actual_signing_address_bare) = Returned None.
Proof.
  assert (H : prefix "0x" (lower actual_signing_address_bare) = false)
    by (vm_compute; reflexivity).
  split; [split; [exact checksum_address_starts_with_0x | exact H]|].
  exact (expected_address_needs_its_prefix hex_to_Z
           Secp256k1.Signature Secp256k1.PublicKey Secp256k1.keys_Signature
           Secp256k1.recover_public_key_from_msg_hash
           Secp256k1.to_checksum_address
           ("0x" ++ phase2_signature) raw_candidate
           actual_signing_address_bare
           checksum_address_starts_with_0x H).
Defined.

(** The signature of [main] with its first two characters replaced by
    "zz". *)
Lemma unreadable_r_or_s_fails_every_trial_witness :
  (String.length (strip_0x non_hex_signature) = 130%nat
   /\ (hex_to_Z (substring 0 64 (strip_0x non_hex_signature)) = None
       \/ hex_to_Z (substring 64 64 (strip_0x non_hex_signature)) = None))
  /\ run_verify_signature_recovery non_hex_signature raw_candidate
       expected_address =
     (Banner
        :: SignatureAnalysis
             (substring 0 64 (strip_0x non_hex_signature))
             (substring 64 64 (strip_0x non_hex_signature))
             (substring 128 2 (strip_0x non_hex_signature))
             expected_address
        :: exhausted_report (fun _ _ v => [TrialFailed v]) 1 raw_candidate
        ++ [NoMatch],
      Returned None).
Proof.
  assert (Hlen : String.length (strip_0x non_hex_signature) = 130%nat)
    by (vm_compute; reflexivity).
  assert (Hbad : hex_to_Z (substring 0 64 (strip_0x non_hex_signature)) = None
                 \/ hex_to_Z (substring 64 64 (strip_0x non_hex_signature))
                    = None)
    by (left; vm_compute; reflexivity).
  split; [split; [exact Hlen | exact Hbad]|].
  exact (unreadable_r_or_s_fails_every_trial hex_to_Z
           Secp256k1.Signature Secp256k1.PublicKey Secp256k1.keys_Signature
           Secp256k1.recover_public_key_from_msg_hash
           Secp256k1.to_checksum_address
           non_hex_signature raw_candidate expected_address Hlen Hbad).
Defined.
